(** * Wine-quality dashboard (streamlit_app.py): filter layer, cleaning
    pipeline, session cache and views

    A shallow embedding of [src/streamlit_app.py].  The script is one
    function, [main], that is re-run from top to bottom on every user
    interaction.  It filters the loaded table with two range sliders,
    cleans the filtered table once per session, and hands the cleaned table
    to one of four views.

    Modelling choices.
    - A table (pandas [DataFrame]) is its ordered column labels and its
      ordered rows; a row carries its index label and a finite map from
      column label to value.  A missing value (NaN) is an absent entry.
    - Values are the numbers of the wine table.  The code only compares
      them and tests them for equality (no arithmetic), so a number is
      modelled by the rational it denotes.  Infinite values, which a CSV
      file could hold, are outside the model.
    - Python exceptions are the [Raise] case of [result].
    - Streamlit calls append to the page; [st.session_state] is a finite
      map with string keys.  Both are threaded through the [App] monad.
      A widget call returns what the user has chosen; a slider whose
      bounds coincide and a multiselect with a default outside its options
      raise instead.
    - The plotting and statistics calls (seaborn, [describe], [median],
      [corr], [to_csv]) are fields of a [Library] record. *)

From Stdlib Require Import QArith.
From stdpp Require Import base option list strings gmap.

Open Scope string_scope.
Open Scope list_scope.

(* ================================================================= *)
(** * Exceptions *)

Inductive exn : Type :=
| KeyError (key : string)
| KeyErrorNotInIndex (missing : list string)
| ValueError (msg : string)
| IntCastingNaNError
| AttributeError (name : string)
| StreamlitAPIException
| LibraryError (msg : string).

Inductive result (A : Type) : Type :=
| Ok (a : A)
| Raise (e : exn).
Arguments Ok {A} a.
Arguments Raise {A} e.

#[global] Instance result_ret : MRet result := λ A a, Ok a.
#[global] Instance result_bind : MBind result := λ A B f m,
  match m with
  | Ok a => f a
  | Raise e => Raise e
  end.

(* ================================================================= *)
(** * Tables *)

Record Row : Type := mkRow {
  label : nat;                (* index label of the row *)
  cells : gmap string Q       (* column label ↦ value; absent = NaN *)
}.

Record DataFrame : Type := mkDataFrame {
  columns : list string;
  rows : list Row
}.

(** A column taken out of a table: one entry per row, [None] for NaN. *)
Abbreviation Series := (list (option Q)).

(** ** Comparisons of a column with a scalar

    A comparison with NaN is [False] in pandas. *)

Definition Qlt_bool (x y : Q) : bool := negb (Qle_bool y x).

Definition series_ge (s : Series) (x : Q) : list bool :=
  fmap (λ v, match v with Some q => Qle_bool x q | None => false end) s.
Definition series_le (s : Series) (x : Q) : list bool :=
  fmap (λ v, match v with Some q => Qle_bool q x | None => false end) s.
Definition series_gt (s : Series) (x : Q) : list bool :=
  fmap (λ v, match v with Some q => Qlt_bool x q | None => false end) s.
Definition series_lt (s : Series) (x : Q) : list bool :=
  fmap (λ v, match v with Some q => Qlt_bool q x | None => false end) s.

(** [m1 & m2] on boolean columns. *)
Definition series_and (m1 m2 : list bool) : list bool := zip_with andb m1 m2.

(** ** Indexing *)

(** [df[c]]: the column labelled [c]; [KeyError] when there is none. *)
Definition getitem (df : DataFrame) (c : string) : result Series :=
  if bool_decide (c ∈ columns df)
  then Ok ((λ r, cells r !! c) <$> rows df)
  else Raise (KeyError c).

Fixpoint select_rows (l : list Row) (mask : list bool) : list Row :=
  match l, mask with
  | r :: l', b :: mask' =>
      if b then r :: select_rows l' mask' else select_rows l' mask'
  | _, _ => []
  end.

(** [df[mask]]: the rows whose mask entry is [True], in order, with their
    index labels; the mask must have one entry per row. *)
Definition getitem_mask (df : DataFrame) (mask : list bool) : result DataFrame :=
  if bool_decide (length mask = length (rows df))
  then Ok (mkDataFrame (columns df) (select_rows (rows df) mask))
  else Raise (ValueError "Item wrong length").

Definition row_select (cs : list string) (r : Row) : Row :=
  mkRow (label r) (filter (λ kv, kv.1 ∈ cs) (cells r)).

(** [df[cs]] for a list of labels: the sub-table with these columns.  When
    some labels are not columns, the [KeyError] names all of them. *)
Definition getitem_columns (df : DataFrame) (cs : list string) : result DataFrame :=
  match filter (λ c, c ∉ columns df) cs with
  | [] => Ok (mkDataFrame cs (row_select cs <$> rows df))
  | missing => Raise (KeyErrorNotInIndex missing)
  end.

(** ** Cleaning primitives *)

Definition row_notna (cols : list string) (r : Row) : bool :=
  forallb (λ c, bool_decide (is_Some (cells r !! c))) cols.

(** [df.dropna()]: drop the rows with a missing value in any column. *)
Definition dropna (df : DataFrame) : DataFrame :=
  mkDataFrame (columns df) (filter (λ r, row_notna (columns df) r) (rows df)).

Definition cell_eqb (u v : option Q) : bool :=
  match u, v with
  | Some p, Some q => Qeq_bool p q
  | None, None => true
  | _, _ => false
  end.

(** Two rows are duplicates when they agree on every column; the index
    label is not compared. *)
Definition row_eqb (cols : list string) (r1 r2 : Row) : bool :=
  forallb (λ c, cell_eqb (cells r1 !! c) (cells r2 !! c)) cols.

(** [df.duplicated()]: a row is marked when an equal row occurs earlier. *)
Fixpoint duplicated (cols : list string) (earlier l : list Row) : list bool :=
  match l with
  | [] => []
  | r :: l' => existsb (row_eqb cols r) earlier :: duplicated cols (r :: earlier) l'
  end.

(** [df.drop_duplicates()]: keep the unmarked rows ([keep='first']). *)
Definition drop_duplicates (df : DataFrame) : DataFrame :=
  mkDataFrame (columns df)
    (select_rows (rows df) (negb <$> duplicated (columns df) [] (rows df))).

(** Conversion of one number to integer: truncation towards zero. *)
Definition Qtrunc (q : Q) : Q := inject_Z (Z.quot (Qnum q) (Zpos (Qden q))).

(** [s.astype(int)]: fails on a column with a missing value. *)
Definition astype_int (s : Series) : result Series :=
  if forallb (λ v, bool_decide (is_Some v)) s
  then Ok ((λ v : option Q, Qtrunc <$> v) <$> s)
  else Raise IntCastingNaNError.

Definition row_set (c : string) (v : option Q) (r : Row) : Row :=
  mkRow (label r)
        (match v with Some q => <[c := q]> (cells r) | None => delete c (cells r) end).

(** Rows and values are matched in order; a row the column has no value
    for gets NaN, and values without a row are left out. *)
Fixpoint assign_rows (c : string) (s : Series) (l : list Row) : list Row :=
  match l with
  | [] => []
  | r :: l' =>
      match s with
      | v :: s' => row_set c v r :: assign_rows c s' l'
      | [] => row_set c None r :: assign_rows c [] l'
      end
  end.

(** [df[c] = s] for a column [s] taken from the same table: replace column
    [c] (append it when it is new).  pandas aligns [s] with the rows on
    their index labels, which for a column of the same table is their
    order, and checks no length. *)
Definition setitem (df : DataFrame) (c : string) (s : Series) : result DataFrame :=
  Ok (mkDataFrame
        (if bool_decide (c ∈ columns df) then columns df else columns df ++ [c])
        (assign_rows c s (rows df))).

Definition row_drop (cs : list string) (r : Row) : Row :=
  mkRow (label r) (foldr delete (cells r) cs).

(** [df.drop(columns=cs)]: [KeyError] when a label is not a column. *)
Definition drop_columns (df : DataFrame) (cs : list string) : result DataFrame :=
  match list_find (λ c, c ∉ columns df) cs with
  | Some (_, c) => Raise (KeyError c)
  | None => Ok (mkDataFrame (filter (λ c, c ∉ cs) (columns df))
                            (row_drop cs <$> rows df))
  end.

(** [df.head()]: the first five rows. *)
Definition head (df : DataFrame) : DataFrame :=
  mkDataFrame (columns df) (take 5 (rows df)).

(** [df.isnull().sum()]: per column, the number of rows with NaN there. *)
Definition isnull_sum (df : DataFrame) : list (string * nat) :=
  (λ c, (c, length (filter (λ r, cells r !! c = None) (rows df)))) <$> columns df.

(* ================================================================= *)
(** * Filter layer (main, lines 233-236) *)

Definition filter_layer (df : DataFrame)
    (quality_filter : Z * Z) (alcohol_filter : Q * Q) : result DataFrame :=
  q_lo ← getitem df "quality";
  q_hi ← getitem df "quality";
  a_lo ← getitem df "alcohol";
  a_hi ← getitem df "alcohol";
  getitem_mask df
    (series_and
       (series_and
          (series_and (series_ge q_lo (inject_Z quality_filter.1))
                      (series_le q_hi (inject_Z quality_filter.2)))
          (series_ge a_lo alcohol_filter.1))
       (series_le a_hi alcohol_filter.2)).

(* ================================================================= *)
(** * Cleaning pipeline (main, lines 252-256) *)

Definition cleaning_pipeline (df_filtered : DataFrame) : result DataFrame :=
  let df_cleaned := drop_duplicates (dropna df_filtered) in
  ids ← getitem df_cleaned "Id";
  ids ← astype_int ids;
  df_cleaned ← setitem df_cleaned "Id" ids;
  fa_lo ← getitem df_cleaned "fixed acidity";
  fa_hi ← getitem df_cleaned "fixed acidity";
  df_cleaned ← getitem_mask df_cleaned
                 (series_and (series_gt fa_lo 0) (series_lt fa_hi 15));
  drop_columns df_cleaned ["Id"].

(* ================================================================= *)
(** * The same two stages, as the specification words them

    These definitions follow the sentences of the specification, with
    propositions where the code has boolean masks.  They are compared with
    [filter_layer] and [cleaning_pipeline] in the theorems below. *)

#[global] Instance Qle_decision : RelDecision Qle := λ x y,
  match Qlt_le_dec y x with
  | left H => right (Qlt_not_le _ _ H)
  | right H => left H
  end.
#[global] Instance Qlt_decision : RelDecision Qlt := λ x y,
  match Qlt_le_dec x y with
  | left H => left H
  | right H => right (Qle_not_lt _ _ H)
  end.
#[global] Instance Qeq_decision : RelDecision Qeq := Qeq_dec.

(** The value is present and lies in the closed interval [lo, hi]. *)
Definition within (lo hi : Q) (v : option Q) : Prop :=
  match v with
  | Some q => (lo <= q)%Q ∧ (q <= hi)%Q
  | None => False
  end.

(** The value is present and lies in the open interval (lo, hi). *)
Definition strictly_within (lo hi : Q) (v : option Q) : Prop :=
  match v with
  | Some q => (lo < q)%Q ∧ (q < hi)%Q
  | None => False
  end.

#[global] Instance within_decision lo hi v : Decision (within lo hi v).
Proof. destruct v; simpl; apply _. Defined.
#[global] Instance strictly_within_decision lo hi v : Decision (strictly_within lo hi v).
Proof. destruct v; simpl; apply _. Defined.

(** Both range predicates of the filter layer, on one row. *)
Definition in_filter_ranges (quality_filter : Z * Z) (alcohol_filter : Q * Q)
    (r : Row) : Prop :=
  within (inject_Z quality_filter.1) (inject_Z quality_filter.2) (cells r !! "quality")
  ∧ within alcohol_filter.1 alcohol_filter.2 (cells r !! "alcohol").

(** No field of the row is missing. *)
Definition no_missing_field (cols : list string) (r : Row) : Prop :=
  Forall (λ c, is_Some (cells r !! c)) cols.

Definition same_value (u v : option Q) : Prop :=
  match u, v with
  | Some p, Some q => (p == q)%Q
  | None, None => True
  | _, _ => False
  end.

#[global] Instance same_value_decision u v : Decision (same_value u v).
Proof. destruct u, v; simpl; apply _. Defined.

(** Exact duplicates: the same value in every column. *)
Definition exact_duplicate (cols : list string) (r1 r2 : Row) : Prop :=
  Forall (λ c, same_value (cells r1 !! c) (cells r2 !! c)) cols.

(** Keep the first occurrence of every row and remove its later exact
    duplicates. *)
Fixpoint first_occurrences (cols : list string) (l : list Row) : list Row :=
  match l with
  | [] => []
  | r :: l' => r :: filter (λ x, ¬ exact_duplicate cols r x) (first_occurrences cols l')
  end.

Definition spec_drop_missing (df : DataFrame) : DataFrame :=
  mkDataFrame (columns df) (filter (no_missing_field (columns df)) (rows df)).

Definition spec_drop_duplicates (df : DataFrame) : DataFrame :=
  mkDataFrame (columns df) (first_occurrences (columns df) (rows df)).

Definition spec_coerce_id (df : DataFrame) : DataFrame :=
  mkDataFrame (columns df)
    ((λ r, mkRow (label r) (alter Qtrunc "Id" (cells r))) <$> rows df).

Definition spec_acidity_bound (df : DataFrame) : DataFrame :=
  mkDataFrame (columns df)
    (filter (λ r, strictly_within 0 15 (cells r !! "fixed acidity")) (rows df)).

Definition spec_drop_id (df : DataFrame) : DataFrame :=
  mkDataFrame (filter (λ c, c ≠ "Id") (columns df))
    ((λ r, mkRow (label r) (delete "Id" (cells r))) <$> rows df).

(** missing-value drop → duplicate drop → Id coercion → acidity bound
    filter → Id column drop. *)
Definition spec_cleaning (df : DataFrame) : DataFrame :=
  spec_drop_id
    (spec_acidity_bound
       (spec_coerce_id
          (spec_drop_duplicates
             (spec_drop_missing df)))).

(** The rows of the input that the cleaning sequence retains: complete,
    first among their exact duplicates, with an acidity in (0, 15). *)
Definition surviving_rows (df : DataFrame) : list Row :=
  filter (λ r, strictly_within 0 15 (cells r !! "fixed acidity"))
    (first_occurrences (columns df)
       (filter (no_missing_field (columns df)) (rows df))).

(** A row without its [Id] field. *)
Definition without_id (r : Row) : Row := mkRow (label r) (delete "Id" (cells r)).

(* ================================================================= *)
(** * The application

    The texts shown to the user are abbreviated to their first words and
    written without their pictographs. *)

(** What the user has chosen on the widgets when the script is (re)run:
    the value each widget call returns. *)
Record Interaction : Type := mkInteraction {
  nav_option : string;              (* [option], the navigation radio *)
  quality_filter : Z * Z;
  alcohol_filter : Q * Q;
  selected_features : list string;
  selected_quality : string;
  pairplot_features : list string
}.

(** Where an element is drawn. *)
Inductive container : Type :=
| Body
| Sidebar
| Tab (name : string).

(** [s.min()] and [s.max()] skip NaN and give NaN on a column without a
    value. *)
Definition series_min (s : Series) : option Q :=
  foldr (λ v acc,
           match v, acc with
           | Some q, Some m => Some (if Qle_bool q m then q else m)
           | Some q, None => Some q
           | None, _ => acc
           end) None s.
Definition series_max (s : Series) : option Q :=
  foldr (λ v acc,
           match v, acc with
           | Some q, Some m => Some (if Qle_bool m q then q else m)
           | Some q, None => Some q
           | None, _ => acc
           end) None s.

(** [int(x)] on a number: truncation; [ValueError] on NaN. *)
Definition to_int (v : option Q) : result Z :=
  match v with
  | Some q => Ok (Z.quot (Qnum q) (Zpos (Qden q)))
  | None => Raise (ValueError "cannot convert float NaN to integer")
  end.

Section application.
Context {Figure Table : Type}.

(** The calls into pandas statistics, seaborn and the CSV writer.  A
    statistics table, a styled table and a column of statistics are all
    of type [Table]. *)
Record Library : Type := mkLibrary {
  to_csv : DataFrame → string;
  describe : DataFrame → result Table;
  transpose : Table → Table;
  median : DataFrame → result Table;
  table_setitem : Table → string → Table → result Table;
  table_getitem : Table → list string → result Table;
  highlight_max : Table → result Table;
  corr : DataFrame → result Table;
  heatmap : Table → result Figure;
  boxplot : DataFrame → result Figure;
  histplot : Series → result Figure;
  pairplot : DataFrame → string → result Figure
}.

Inductive element : Type :=
| title (body : string)
| header (body : string)
| subheader (body : string)
| markdown (body : string)
| write (body : string)
| write_counts (counts : list (string * nat))
| dataframe (df : DataFrame)
| dataframe_styled (t : Table)
| pyplot (fig : Figure)
| tabs (names : list string)
| multiselect (label : string) (options default : list string)
| selectbox (label : string) (options : list string)
| radio (label : string) (options : list string)
| slider_int (label : string) (min_value max_value : Z)
| slider_float (label : string) (min_value max_value : option Q)
| download_button (label data file_name mime : string).

(** The state a run of the script works on: the session state, which
    survives from one run to the next, and the page drawn so far. *)
Record World : Type := mkWorld {
  session_state : gmap string DataFrame;
  page : list (container * element)
}.

(** A computation that reads and writes the world and may raise. *)
Definition App (A : Type) : Type := World → World * result A.

#[global] Instance App_ret : MRet App := λ A a w, (w, Ok a).
#[global] Instance App_bind : MBind App := λ A B f m w,
  match m w with
  | (w', Ok a) => f a w'
  | (w', Raise e) => (w', Raise e)
  end.

Definition lift {A} (r : result A) : App A := λ w, (w, r).

(** A streamlit drawing call. *)
Definition st (where_ : container) (e : element) : App unit :=
  λ w, (mkWorld (session_state w) (page w ++ [(where_, e)]), Ok ()).

(** [key in st.session_state] *)
Definition session_contains (key : string) : App bool :=
  λ w, (w, Ok (bool_decide (is_Some (session_state w !! key)))).

(** [st.session_state.key = v] *)
Definition session_set (key : string) (v : DataFrame) : App unit :=
  λ w, (mkWorld (<[key := v]> (session_state w)) (page w), Ok ()).

(** [st.session_state.key] *)
Definition session_get (key : string) : App DataFrame :=
  λ w, (w, match session_state w !! key with
           | Some v => Ok v
           | None => Raise (AttributeError key)
           end).

(** [st.multiselect]: the widget is drawn when every default is one of the
    options; otherwise the call raises, before the user can select
    anything. *)
Definition st_multiselect (where_ : container) (label : string)
    (options default : list string) : App unit :=
  if bool_decide (Forall (λ c, c ∈ options) default)
  then st where_ (multiselect label options default)
  else lift (Raise StreamlitAPIException).

(** [st.slider] with integer bounds: the widget is drawn when
    [min_value < max_value]; otherwise the call raises. *)
Definition st_slider_int (where_ : container) (label : string)
    (min_value max_value : Z) : App unit :=
  if bool_decide (min_value < max_value)%Z
  then st where_ (slider_int label min_value max_value)
  else lift (Raise StreamlitAPIException).

(** [st.slider] with float bounds: as for integers; bounds that are NaN
    are not bounds, and the call is taken to raise on them too. *)
Definition st_slider_float (where_ : container) (label : string)
    (min_value max_value : option Q) : App unit :=
  match min_value, max_value with
  | Some lo, Some hi =>
      if Qlt_bool lo hi
      then st where_ (slider_float label min_value max_value)
      else lift (Raise StreamlitAPIException)
  | _, _ =>
      lift (Raise StreamlitAPIException)
  end.

Variable lib : Library.

(** ** Introduction (lines 12-27) *)
Definition introduction : App unit :=
  st Body (title "Wine Quality Data Analysis");;
  st Body (header "Introduction");;
  st Body (markdown "The Wine Quality dataset contains ...").

(** Lines 66-68: the statistics table of the cleaned table. *)
Definition desc_stats (df_cleaned : DataFrame) : result Table :=
  d ← describe lib df_cleaned;
  let desc_stats := transpose lib d in
  m ← median lib df_cleaned;
  desc_stats ← table_setitem lib desc_stats "median" m;
  table_getitem lib desc_stats
    ["mean"; "median"; "std"; "min"; "25%"; "50%"; "75%"; "max"].

(** ** Data cleaning and describing (lines 32-79) *)
Definition data_cleaning_and_describing (df df_cleaned : DataFrame) : App unit :=
  st Body (header "Data Cleaning and Descriptive Statistics");;
  st Body (tabs ["Raw Data"; "Data Cleaning"; "Descriptive Statistics"]);;
  (* with tab1 *)
  st (Tab "Raw Data") (subheader "Raw Data");;
  st (Tab "Raw Data") (write "Here is a preview of the raw dataset:");;
  st (Tab "Raw Data") (dataframe (head df));;
  (* with tab2 *)
  st (Tab "Data Cleaning") (subheader "Data Cleaning Process");;
  st (Tab "Data Cleaning") (markdown "The data cleaning process involves ...");;
  st (Tab "Data Cleaning") (write "### Missing Values in Each Column:");;
  st (Tab "Data Cleaning") (write_counts (isnull_sum df));;
  st (Tab "Data Cleaning") (write "### Cleaned Data Preview:");;
  st (Tab "Data Cleaning") (dataframe (head df_cleaned));;
  (* with tab3 *)
  st (Tab "Descriptive Statistics") (subheader "Descriptive Statistics");;
  st (Tab "Descriptive Statistics") (markdown "Descriptive statistics provide ...");;
  t ← lift (desc_stats df_cleaned);
  styled ← lift (highlight_max lib t);
  st (Tab "Descriptive Statistics") (dataframe_styled styled);;
  st (Tab "Descriptive Statistics") (markdown "### Understanding the Statistics: ...").

(** ** Data visualization (lines 84-163), one definition per tab *)

Definition heatmap_tab (df_cleaned : DataFrame) : App unit :=
  st (Tab "Correlation Heatmap") (subheader "Correlation Heatmap");;
  c ← lift (corr lib df_cleaned);
  fig ← lift (heatmap lib c);
  st (Tab "Correlation Heatmap") (pyplot fig);;
  st (Tab "Correlation Heatmap") (markdown "The Correlation Heatmap visualizes ...").

(** Lines 104-123.  [selected] is what the multiselect returns once it is
    drawn. *)
Definition boxplot_tab (df_cleaned : DataFrame) (selected : list string) : App unit :=
  st (Tab "Boxplot") (subheader "Boxplot of Key Features");;
  st_multiselect (Tab "Boxplot")
    "Select features to display boxplots:" (columns df_cleaned)
    ["fixed acidity"; "volatile acidity"; "quality"];;
  match selected with
  | [] => mret ()
  | _ =>
      data ← lift (getitem_columns df_cleaned selected);
      fig ← lift (boxplot lib data);
      st (Tab "Boxplot") (pyplot fig);;
      st (Tab "Boxplot") (markdown "Boxplots help identify ...")
  end.

Definition quality_tab (df_cleaned : DataFrame) (selected : string) : App unit :=
  st (Tab "Quality Distribution") (subheader "Distribution of Wine Quality");;
  st (Tab "Quality Distribution")
     (selectbox "Select a quality feature to visualize:" ["quality"]);;
  if bool_decide (selected = "")
  then mret ()
  else
    s ← lift (getitem df_cleaned selected);
    fig ← lift (histplot lib s);
    st (Tab "Quality Distribution") (pyplot fig);;
    st (Tab "Quality Distribution") (markdown "The Distribution Plot shows ...").

(** Lines 145-163.  [selected] is what the multiselect returns once it is
    drawn. *)
Definition pairplot_tab (df_cleaned : DataFrame) (selected : list string) : App unit :=
  st (Tab "Pairplot") (subheader "Pairplot of Key Features");;
  st_multiselect (Tab "Pairplot")
    "Select features for pairplot:" (columns df_cleaned)
    ["fixed acidity"; "volatile acidity"; "citric acid"; "alcohol"; "quality"];;
  match selected with
  | [] => mret ()
  | _ =>
      data ← lift (getitem_columns df_cleaned selected);
      fig ← lift (pairplot lib data "quality");
      st (Tab "Pairplot") (pyplot fig);;
      st (Tab "Pairplot") (markdown "Pairplots help visualize ...")
  end.

Definition data_visualization (df_cleaned : DataFrame) (ui : Interaction) : App unit :=
  st Body (header "Data Visualization");;
  st Body (tabs ["Correlation Heatmap"; "Boxplot"; "Quality Distribution"; "Pairplot"]);;
  heatmap_tab df_cleaned;;
  boxplot_tab df_cleaned (selected_features ui);;
  quality_tab df_cleaned (selected_quality ui);;
  pairplot_tab df_cleaned (pairplot_features ui).

(** ** Conclusion (lines 168-191) *)
Definition conclusion : App unit :=
  st Body (header "Conclusion and Key Findings");;
  st Body (markdown "### Key Findings ...").

(** ** Data cleaning and caching (main, lines 250-259) *)
Definition cached_cleaning (df_filtered : DataFrame) : App DataFrame :=
  cached ← session_contains "df_cleaned";
  (if negb cached
   then df_cleaned ← lift (cleaning_pipeline df_filtered);
        session_set "df_cleaned" df_cleaned
   else mret ());;
  session_get "df_cleaned".

(** ** Main application (lines 196-278)

    [df] is what [load_data()] returns. *)
Definition main (df : DataFrame) (ui : Interaction) : App unit :=
  st Sidebar (header "Navigation");;
  st Sidebar (radio "Go to"
    ["Introduction"; "Data Cleaning & Describing"; "Data Visualization"; "Conclusion"]);;
  let option := nav_option ui in
  st Sidebar (header "Filters");;
  q ← lift (getitem df "quality");
  quality_min ← lift (to_int (series_min q));
  q ← lift (getitem df "quality");
  quality_max ← lift (to_int (series_max q));
  st_slider_int Sidebar "Select Quality Range:" quality_min quality_max;;
  let quality_filter := quality_filter ui in
  a ← lift (getitem df "alcohol");
  let alcohol_min := series_min a in
  a ← lift (getitem df "alcohol");
  let alcohol_max := series_max a in
  st_slider_float Sidebar "Select Alcohol Content Range:" alcohol_min alcohol_max;;
  let alcohol_filter := alcohol_filter ui in
  df_filtered ← lift (filter_layer df quality_filter alcohol_filter);
  st Sidebar (markdown "---");;
  st Sidebar (markdown "### Download Data");;
  let csv := to_csv lib df_filtered in
  st Sidebar (download_button "Download Filtered Data as CSV" csv
                "filtered_wine_quality.csv" "text/csv");;
  df_cleaned ← cached_cleaning df_filtered;
  (if bool_decide (option = "Introduction") then introduction
   else if bool_decide (option = "Data Cleaning & Describing")
        then data_cleaning_and_describing df df_cleaned
   else if bool_decide (option = "Data Visualization")
        then data_visualization df_cleaned ui
   else if bool_decide (option = "Conclusion") then conclusion
   else mret ());;
  st Sidebar (markdown "---");;
  st Sidebar (markdown "### About");;
  st Sidebar (markdown "Developed by Irregulars ...").

(** The session: the script is run once per interaction, each run on a
    fresh page and on the session state the previous run left. *)
Definition rerun (df : DataFrame) (w : World) (ui : Interaction) : World :=
  (main df ui (mkWorld (session_state w) [])).1.

Definition session (df : DataFrame) (uis : list Interaction) (w : World) : World :=
  foldl (rerun df) w uis.

End application.

(* ================================================================= *)
(** * A small wine table used in the examples *)

Definition wine_columns : list string :=
  ["fixed acidity"; "alcohol"; "quality"; "Id"].

Definition wine_row (i : nat) (fixed_acidity alcohol quality id : option Q) : Row :=
  mkRow i
    (list_to_map
       (omap (λ kv, pair kv.1 <$> kv.2)
          [("fixed acidity", fixed_acidity); ("alcohol", alcohol);
           ("quality", quality); ("Id", id)])).

(** Rows 1 and 2 differ only in [Id]; row 3 has an acidity above 15; row 4
    lacks its acidity; row 5 repeats row 0 with the same [Id]. *)
Definition wine : DataFrame :=
  mkDataFrame wine_columns
    [ wine_row 0 (Some (37 # 5)) (Some (47 # 5)) (Some 5) (Some 0);
      wine_row 1 (Some (39 # 5)) (Some (49 # 5)) (Some 5) (Some 1);
      wine_row 2 (Some (39 # 5)) (Some (49 # 5)) (Some 5) (Some 2);
      wine_row 3 (Some (159 # 10)) (Some 10) (Some 6) (Some 3);
      wine_row 4 None (Some 11) (Some 7) (Some 4);
      wine_row 5 (Some (37 # 5)) (Some (47 # 5)) (Some 5) (Some 0) ]%Q.

(** [wine] after cleaning: rows 0, 1 and 2 without their [Id]. *)
Definition cleaned_row (i : nat) (fixed_acidity alcohol quality : Q) : Row :=
  mkRow i
    (list_to_map
       [("fixed acidity", fixed_acidity); ("alcohol", alcohol); ("quality", quality)]).

Definition wine_cleaned : DataFrame :=
  mkDataFrame ["fixed acidity"; "alcohol"; "quality"]
    [ cleaned_row 0 (37 # 5) (47 # 5) 5;
      cleaned_row 1 (39 # 5) (49 # 5) 5;
      cleaned_row 2 (39 # 5) (49 # 5) 5 ]%Q.

(** Two rows that differ only in a fractional [Id] (1.2 and 1.7): distinct
    when duplicates are assessed, equal once [Id] is an integer. *)
Definition fractional_ids : DataFrame :=
  mkDataFrame wine_columns
    [ wine_row 0 (Some 7) (Some 10) (Some 6) (Some (6 # 5));
      wine_row 1 (Some 7) (Some 10) (Some 6) (Some (17 # 10)) ]%Q.

(** A cleaned table with the five columns the chart tabs offer by
    default. *)
Definition chart_columns : list string :=
  ["fixed acidity"; "volatile acidity"; "citric acid"; "alcohol"; "quality"].

Definition chart_row (i : nat) (fixed_acidity volatile_acidity citric_acid
    alcohol quality : Q) : Row :=
  mkRow i
    (list_to_map
       [("fixed acidity", fixed_acidity); ("volatile acidity", volatile_acidity);
        ("citric acid", citric_acid); ("alcohol", alcohol); ("quality", quality)]).

Definition chart_table : DataFrame :=
  mkDataFrame chart_columns
    [ chart_row 0 (37 # 5) (7 # 10) 0 (47 # 5) 5;
      chart_row 1 (39 # 5) (22 # 25) 0 (49 # 5) 5;
      chart_row 3 (56 # 5) (7 # 25) (14 # 25) (49 # 5) 6 ]%Q.

(** A library whose calls all succeed; its figures and tables carry no
    content. *)
Definition quiet_library : @Library unit unit :=
  {| to_csv := λ _, "";
     describe := λ _, Ok ();
     transpose := λ t, t;
     median := λ _, Ok ();
     table_setitem := λ _ _ _, Ok ();
     table_getitem := λ _ _, Ok ();
     highlight_max := λ _, Ok ();
     corr := λ _, Ok ();
     heatmap := λ _, Ok ();
     boxplot := λ _, Ok ();
     histplot := λ _, Ok ();
     pairplot := λ _ _, Ok () |}.

Definition fresh_session : @World unit unit := mkWorld ∅ [].

(** The first visit: full slider ranges, the statistics page. *)
Definition first_visit : Interaction :=
  {| nav_option := "Data Cleaning & Describing";
     quality_filter := (5, 7)%Z;
     alcohol_filter := (47 # 5, 11)%Q;
     selected_features := ["fixed acidity"; "quality"];
     selected_quality := "quality";
     pairplot_features := ["fixed acidity"; "alcohol"; "quality"] |}.

(** Later, the quality slider narrowed to [6, 6]. *)
Definition narrowed : Interaction :=
  {| nav_option := "Data Visualization";
     quality_filter := (6, 6)%Z;
     alcohol_filter := (47 # 5, 11)%Q;
     selected_features := [];
     selected_quality := "quality";
     pairplot_features := [] |}.

(** Bounds that no row of [wine] satisfies: the only row of quality 7 has
    alcohol 11. *)
Definition excluding_all : Interaction :=
  {| nav_option := "Data Cleaning & Describing";
     quality_filter := (7, 7)%Z;
     alcohol_filter := (47 # 5, 10)%Q;
     selected_features := [];
     selected_quality := "quality";
     pairplot_features := [] |}.

(* ================================================================= *)
(** * Properties of runs, as the specification words them *)

(** The session cache is left alone by a computation: started with [c]
    cached, it ends with the same session state. *)
Definition keeps_cache {Figure Table A : Type} (c : DataFrame)
    (m : @App Figure Table A) : Prop :=
  ∀ w, session_state w !! "df_cleaned" = Some c →
       session_state (m w).1 = session_state w.

(** An explicit no-data state: the page shows no statistics table. *)
Definition no_data_state {Figure Table : Type}
    (p : list (container * @element Figure Table)) : Prop :=
  ∀ t, (Tab "Descriptive Statistics", dataframe_styled t) ∉ p.


(** Every run of the computation takes a world to one related to it by
    [R], whether it returns or raises. *)
Definition always {Figure Table A : Type} (R : relation (@World Figure Table))
    (m : @App Figure Table A) : Prop :=
  ∀ w, R w (m w).1.

(** The session state is as it was. *)
Definition same_session {Figure Table : Type} : relation (@World Figure Table) :=
  λ w w', session_state w' = session_state w.

(** Every session key other than [key] is as it was. *)
Definition same_other_keys {Figure Table : Type} (key : string) :
    relation (@World Figure Table) :=
  λ w w', ∀ k, k ≠ key → session_state w' !! k = session_state w !! k.

(** The page has only been added to. *)
Definition page_extended {Figure Table : Type} : relation (@World Figure Table) :=
  λ w w', page w `prefix_of` page w'.

(** [R x y] holds for every [x] that comes before [y] in the list. *)
Fixpoint pairwise {A : Type} (R : A → A → Prop) (l : list A) : Prop :=
  match l with
  | [] => True
  | x :: l' => Forall (R x) l' ∧ pairwise R l'
  end.

(** The number is an integer. *)
Definition integral (q : Q) : Prop := ∃ z : Z, (q == inject_Z z)%Q.

(* ================================================================= *)
(** * Boolean tests and the propositions they decide *)

Lemma Qlt_bool_iff (x y : Q) : Qlt_bool x y = true ↔ (x < y)%Q.
Proof.
  unfold Qlt_bool. rewrite negb_true_iff, <- not_true_iff_false, Qle_bool_iff.
  split; [apply Qnot_le_lt | apply Qlt_not_le].
Qed.

Lemma within_ge_le (lo hi : Q) (v : option Q) :
  within lo hi v ↔
  match v with Some q => Qle_bool lo q | None => false end
  && match v with Some q => Qle_bool q hi | None => false end.
Proof.
  destruct v as [q|]; simpl; [|tauto].
  rewrite andb_True, !Is_true_true, !Qle_bool_iff. tauto.
Qed.

Lemma strictly_within_gt_lt (lo hi : Q) (v : option Q) :
  strictly_within lo hi v ↔
  match v with Some q => Qlt_bool lo q | None => false end
  && match v with Some q => Qlt_bool q hi | None => false end.
Proof.
  destruct v as [q|]; simpl; [|tauto].
  rewrite andb_True, !Is_true_true, !Qlt_bool_iff. tauto.
Qed.

Lemma row_notna_iff (cols : list string) (r : Row) :
  row_notna cols r ↔ no_missing_field cols r.
Proof.
  unfold row_notna, no_missing_field. rewrite forallb_True.
  apply Forall_proper; [|done]. intros c. apply bool_decide_spec.
Qed.

Lemma cell_eqb_iff (u v : option Q) : cell_eqb u v ↔ same_value u v.
Proof.
  destruct u, v; simpl; try tauto.
  rewrite Is_true_true. apply Qeq_bool_iff.
Qed.

Lemma row_eqb_iff (cols : list string) (r1 r2 : Row) :
  row_eqb cols r1 r2 ↔ exact_duplicate cols r1 r2.
Proof.
  unfold row_eqb, exact_duplicate. rewrite forallb_True.
  apply Forall_proper; [|done]. intros c. apply cell_eqb_iff.
Qed.

Lemma same_value_sym (u v : option Q) : same_value u v → same_value v u.
Proof. destruct u, v; simpl; auto. apply Qeq_sym. Qed.

Lemma exact_duplicate_sym (cols : list string) (r1 r2 : Row) :
  exact_duplicate cols r1 r2 ↔ exact_duplicate cols r2 r1.
Proof.
  unfold exact_duplicate. split; intros H; eapply Forall_impl; eauto using same_value_sym.
Qed.

(* ================================================================= *)
(** * Masks *)

Section masks.
Context {A : Type}.
Implicit Types (f g : A → bool) (l : list A).

Lemma series_and_fmap f g l :
  series_and (f <$> l) (g <$> l) = (λ x, f x && g x) <$> l.
Proof. unfold series_and. induction l as [|x l IH]; csimpl; [done|]. by rewrite IH. Qed.
End masks.

Lemma select_rows_fmap (f : Row → bool) (l : list Row) :
  select_rows l (f <$> l) = filter (λ r, f r) l.
Proof.
  induction l as [|r l IH]; [done|]. csimpl. rewrite filter_cons, IH.
  by destruct (f r).
Qed.

Lemma select_rows_sublist (l : list Row) (mask : list bool) :
  select_rows l mask `sublist_of` l.
Proof.
  revert mask. induction l as [|r l IH]; intros [|[] mask]; simpl;
    auto using sublist_nil_l, sublist_skip, sublist_cons.
Qed.

Lemma getitem_mask_fmap (df : DataFrame) (f : Row → bool) :
  getitem_mask df (f <$> rows df)
  = Ok (mkDataFrame (columns df) (filter (λ r, f r) (rows df))).
Proof.
  unfold getitem_mask. rewrite length_fmap, bool_decide_eq_true_2 by done.
  by rewrite select_rows_fmap.
Qed.

Lemma getitem_Some (df : DataFrame) (c : string) :
  c ∈ columns df → getitem df c = Ok ((λ r, cells r !! c) <$> rows df).
Proof. intros H. unfold getitem. by rewrite bool_decide_eq_true_2. Qed.

Lemma getitem_None (df : DataFrame) (c : string) :
  c ∉ columns df → getitem df c = Raise (KeyError c).
Proof. intros H. unfold getitem. by rewrite bool_decide_eq_false_2. Qed.

(* ================================================================= *)
(** * The filter layer, in closed form *)

Lemma filter_layer_eq (df : DataFrame) (qf : Z * Z) (af : Q * Q) :
  filter_layer df qf af =
  if bool_decide ("quality" ∈ columns df) then
    if bool_decide ("alcohol" ∈ columns df) then
      Ok (mkDataFrame (columns df) (filter (in_filter_ranges qf af) (rows df)))
    else Raise (KeyError "alcohol")
  else Raise (KeyError "quality").
Proof.
  unfold filter_layer.
  case_bool_decide as Hq; [rewrite (getitem_Some _ _ Hq)|by rewrite (getitem_None _ _ Hq)].
  case_bool_decide as Ha; [rewrite (getitem_Some _ _ Ha)|by rewrite (getitem_None _ _ Ha)].
  cbn [mbind result_bind].
  unfold series_ge, series_le. rewrite <- !list_fmap_compose, !series_and_fmap.
  rewrite getitem_mask_fmap. do 2 f_equal.
  apply list_filter_iff. intros r. unfold in_filter_ranges. simpl.
  rewrite !within_ge_le, !andb_True. tauto.
Qed.

(* ================================================================= *)
(** * The cleaning primitives and their specifications *)

Lemma filter_Forall_id {A} (P : A → Prop) `{!∀ x, Decision (P x)} (l : list A) :
  Forall P l → filter P l = l.
Proof.
  induction 1 as [|x l Hx _ IH]; [done|]. by rewrite filter_cons_True, IH.
Qed.

Lemma Forall_filter_id {A} (P : A → Prop) `{!∀ x, Decision (P x)} (l : list A) :
  Forall P (filter P l).
Proof. apply Forall_forall. intros x [Hx _]%list_elem_of_filter. done. Qed.

Lemma dropna_eq (df : DataFrame) : dropna df = spec_drop_missing df.
Proof.
  unfold dropna, spec_drop_missing. f_equal.
  apply list_filter_iff. intros r. apply row_notna_iff.
Qed.

Lemma existsb_row_eqb (cols : list string) (r : Row) (earlier : list Row) :
  existsb (row_eqb cols r) earlier = true
  ↔ Exists (λ e, exact_duplicate cols e r) earlier.
Proof.
  rewrite existsb_exists, Exists_exists. split.
  - intros (e & Hin & He). exists e. split; [by apply list_elem_of_In|].
    apply exact_duplicate_sym, row_eqb_iff. by rewrite He.
  - intros (e & Hin & He). exists e. split; [by apply list_elem_of_In|].
    apply Is_true_true, row_eqb_iff, exact_duplicate_sym, He.
Qed.

(** The rows left unmarked by [duplicated] are the first occurrences that
    have no duplicate among the rows seen before. *)
Lemma select_not_duplicated (cols : list string) (earlier l : list Row) :
  select_rows l (negb <$> duplicated cols earlier l)
  = filter (λ x, ¬ Exists (λ e, exact_duplicate cols e x) earlier)
           (first_occurrences cols l).
Proof.
  revert earlier. induction l as [|r l IH]; intros earlier; [done|].
  cbn [duplicated first_occurrences]. csimpl. rewrite IH.
  rewrite filter_cons, list_filter_filter.
  assert (Hext : filter (λ x, ¬ Exists (λ e, exact_duplicate cols e x) (r :: earlier))
                        (first_occurrences cols l)
               = filter (λ x, (¬ Exists (λ e, exact_duplicate cols e x) earlier)
                              ∧ ¬ exact_duplicate cols r x)
                        (first_occurrences cols l)).
  { apply list_filter_iff. intros x. rewrite Exists_cons. tauto. }
  rewrite Hext.
  destruct (existsb (row_eqb cols r) earlier) eqn:E; simpl.
  - apply existsb_row_eqb in E. by case_decide.
  - case_decide as H; [done|]. apply existsb_row_eqb in H. congruence.
Qed.

Lemma drop_duplicates_eq (df : DataFrame) :
  drop_duplicates df = spec_drop_duplicates df.
Proof.
  unfold drop_duplicates, spec_drop_duplicates. f_equal.
  rewrite select_not_duplicated. apply filter_Forall_id, Forall_forall.
  intros x _. by intros ?%Exists_nil.
Qed.

Lemma first_occurrences_sublist (cols : list string) (l : list Row) :
  first_occurrences cols l `sublist_of` l.
Proof.
  induction l as [|r l IH]; [done|]. simpl. apply sublist_skip.
  etrans; [apply sublist_filter|done].
Qed.

Lemma astype_int_fmap (c : string) (l : list Row) :
  Forall (λ r, is_Some (cells r !! c)) l →
  astype_int ((λ r, cells r !! c) <$> l)
  = Ok ((λ r, Qtrunc <$> cells r !! c) <$> l).
Proof.
  intros H. unfold astype_int.
  rewrite <- list_fmap_compose.
  replace (forallb _ _) with true; [done|].
  symmetry. apply Is_true_true, forallb_True, Forall_fmap.
  eapply Forall_impl; [exact H|]. intros r Hr. simpl. by apply bool_decide_pack.
Qed.

Lemma astype_int_None (c : string) (l : list Row) :
  ¬ Forall (λ r, is_Some (cells r !! c)) l →
  astype_int ((λ r, cells r !! c) <$> l) = Raise IntCastingNaNError.
Proof.
  intros H. unfold astype_int.
  destruct (forallb _ _) eqn:E; [|done]. destruct H.
  apply Is_true_true, forallb_True in E. rewrite Forall_fmap in E.
  eapply Forall_impl; [exact E|]. intros r Hr. simpl in Hr.
  by apply bool_decide_unpack in Hr.
Qed.

Lemma row_set_fmap (c : string) (f : Q → Q) (r : Row) :
  row_set c (f <$> cells r !! c) r = mkRow (label r) (alter f c (cells r)).
Proof.
  unfold row_set. f_equal. apply map_eq. intros k.
  destruct (cells r !! c) as [q|] eqn:E; simpl.
  - destruct (decide (c = k)) as [->|Hne].
    + by rewrite lookup_insert_eq, lookup_alter_eq, E.
    + by rewrite lookup_insert_ne, lookup_alter_ne.
  - rewrite delete_id by done. destruct (decide (c = k)) as [->|Hne].
    + by rewrite lookup_alter_eq, E.
    + by rewrite lookup_alter_ne.
Qed.

Lemma assign_rows_fmap (c : string) (f : Row → option Q) (l : list Row) :
  assign_rows c (f <$> l) l = (λ r, row_set c (f r) r) <$> l.
Proof. induction l as [|r l IH]; [done|]. csimpl. by rewrite IH. Qed.

Lemma setitem_fmap (df : DataFrame) (c : string) (f : Row → option Q) :
  c ∈ columns df →
  setitem df c (f <$> rows df)
  = Ok (mkDataFrame (columns df) ((λ r, row_set c (f r) r) <$> rows df)).
Proof.
  intros Hc. unfold setitem.
  by rewrite bool_decide_eq_true_2, assign_rows_fmap.
Qed.

Lemma drop_columns_Id (df : DataFrame) :
  "Id" ∈ columns df → drop_columns df ["Id"] = Ok (spec_drop_id df).
Proof.
  intros Hc. unfold drop_columns, spec_drop_id. simpl.
  rewrite decide_False by (by intros H; apply H).
  do 2 f_equal. apply list_filter_iff. intros c. by rewrite list_elem_of_singleton.
Qed.

Lemma drop_columns_no_Id (df : DataFrame) :
  "Id" ∉ columns df → drop_columns df ["Id"] = Raise (KeyError "Id").
Proof. intros Hc. unfold drop_columns. simpl. by rewrite decide_True. Qed.

Lemma spec_drop_duplicates_complete (df : DataFrame) (c : string) :
  c ∈ columns df →
  Forall (λ r, is_Some (cells r !! c))
         (rows (spec_drop_duplicates (spec_drop_missing df))).
Proof.
  intros Hc. apply Forall_forall. intros r Hr. simpl in Hr.
  eapply elem_of_sublist in Hr; [|apply first_occurrences_sublist].
  apply list_elem_of_filter in Hr as [Hr _].
  unfold no_missing_field in Hr. rewrite Forall_forall in Hr. auto.
Qed.

Lemma coerce_id_eq (df : DataFrame) :
  "Id" ∈ columns df →
  setitem df "Id" ((λ r, Qtrunc <$> cells r !! "Id") <$> rows df)
  = Ok (spec_coerce_id df).
Proof.
  intros Hc. rewrite setitem_fmap by done. unfold spec_coerce_id. do 2 f_equal.
  apply list_fmap_ext. intros i r _. apply row_set_fmap.
Qed.

Lemma acidity_bound_eq (df : DataFrame) :
  getitem_mask df
    (series_and (series_gt ((λ r, cells r !! "fixed acidity") <$> rows df) 0)
                (series_lt ((λ r, cells r !! "fixed acidity") <$> rows df) 15))
  = Ok (spec_acidity_bound df).
Proof.
  unfold series_gt, series_lt. rewrite <- !list_fmap_compose, series_and_fmap.
  rewrite getitem_mask_fmap. unfold spec_acidity_bound. do 2 f_equal.
  apply list_filter_iff. intros r. simpl. by rewrite strictly_within_gt_lt.
Qed.

(* ================================================================= *)
(** * The cleaning pipeline, in closed form *)

Lemma cleaning_pipeline_eq (df : DataFrame) :
  cleaning_pipeline df =
  if bool_decide ("Id" ∈ columns df) then
    if bool_decide ("fixed acidity" ∈ columns df) then Ok (spec_cleaning df)
    else Raise (KeyError "fixed acidity")
  else Raise (KeyError "Id").
Proof.
  unfold cleaning_pipeline. rewrite dropna_eq, drop_duplicates_eq.
  set (d1 := spec_drop_duplicates (spec_drop_missing df)).
  case_bool_decide as Hid; [|by rewrite getitem_None].
  rewrite (getitem_Some d1 "Id") by done. cbn [mbind result_bind].
  rewrite astype_int_fmap by (by apply spec_drop_duplicates_complete).
  cbn [mbind result_bind]. rewrite coerce_id_eq by done. cbn [mbind result_bind].
  set (d2 := spec_coerce_id d1).
  case_bool_decide as Hfa; [|by rewrite getitem_None].
  rewrite (getitem_Some d2 "fixed acidity") by done. cbn [mbind result_bind].
  rewrite acidity_bound_eq. cbn [mbind result_bind].
  by rewrite drop_columns_Id.
Qed.

Lemma cleaning_pipeline_Ok (df d : DataFrame) :
  cleaning_pipeline df = Ok d →
  "Id" ∈ columns df ∧ "fixed acidity" ∈ columns df ∧ d = spec_cleaning df.
Proof.
  rewrite cleaning_pipeline_eq. repeat case_bool_decide; naive_solver.
Qed.

(* ================================================================= *)
(** * What the cleaning sequence retains *)

Lemma filter_fmap_comm {A B} (f : A → B) (P : B → Prop)
    `{!∀ y, Decision (P y)} (l : list A) :
  filter P (f <$> l) = f <$> filter (λ x, P (f x)) l.
Proof.
  induction l as [|x l IH]; [done|]. csimpl. rewrite !filter_cons, IH.
  by case_decide.
Qed.

Lemma spec_cleaning_columns (df : DataFrame) :
  columns (spec_cleaning df) = filter (λ c, c ≠ "Id") (columns df).
Proof. done. Qed.

Lemma spec_cleaning_rows (df : DataFrame) :
  rows (spec_cleaning df) = without_id <$> surviving_rows df.
Proof.
  unfold spec_cleaning, surviving_rows. cbn [rows spec_drop_id spec_acidity_bound
    spec_coerce_id spec_drop_duplicates spec_drop_missing columns].
  rewrite filter_fmap_comm, <- list_fmap_compose.
  assert (Hf : ∀ l : list Row,
    filter (λ x, strictly_within 0 15
                   (cells (mkRow (label x) (alter Qtrunc "Id" (cells x))) !! "fixed acidity")) l
    = filter (λ r, strictly_within 0 15 (cells r !! "fixed acidity")) l).
  { intros l. apply list_filter_iff. intros r. simpl. by rewrite lookup_alter_ne. }
  rewrite Hf. apply list_fmap_ext. intros i r _. unfold without_id. simpl.
  by rewrite delete_alter_eq.
Qed.

Lemma surviving_rows_sublist (df : DataFrame) :
  surviving_rows df `sublist_of` rows df.
Proof.
  unfold surviving_rows.
  etrans; [apply sublist_filter|].
  etrans; [apply first_occurrences_sublist|]. apply sublist_filter.
Qed.

Lemma surviving_rows_spec (df : DataFrame) (r : Row) :
  r ∈ surviving_rows df →
  r ∈ rows df
  ∧ no_missing_field (columns df) r
  ∧ strictly_within 0 15 (cells r !! "fixed acidity").
Proof.
  unfold surviving_rows. intros [Hacid Hr]%list_elem_of_filter.
  eapply elem_of_sublist in Hr; [|apply first_occurrences_sublist].
  apply list_elem_of_filter in Hr as [Hc Hr]. done.
Qed.

Lemma first_occurrences_keeps (cols : list string) (l1 l2 : list Row) (r : Row) :
  (∀ x, x ∈ l1 → ¬ exact_duplicate cols x r) →
  r ∈ first_occurrences cols (l1 ++ r :: l2).
Proof.
  induction l1 as [|x l1 IH]; intros Hfirst; simpl.
  - left.
  - right. apply list_elem_of_filter. split.
    + apply Hfirst. left.
    + apply IH. intros y Hy. apply Hfirst. by right.
Qed.

Lemma surviving_rows_first_occurrence (df : DataFrame) (l1 l2 : list Row) (r : Row) :
  rows df = l1 ++ r :: l2 →
  no_missing_field (columns df) r →
  strictly_within 0 15 (cells r !! "fixed acidity") →
  (∀ x, x ∈ l1 → ¬ exact_duplicate (columns df) x r) →
  r ∈ surviving_rows df.
Proof.
  intros Hrows Hc Hacid Hfirst. unfold surviving_rows.
  apply list_elem_of_filter. split; [done|].
  rewrite Hrows, filter_app, filter_cons_True by done.
  apply first_occurrences_keeps. intros x [_ Hx]%list_elem_of_filter. auto.
Qed.

(* ================================================================= *)
(** * Runs of the script *)

Section runs.
Context {Figure Table : Type} (lib : @Library Figure Table).
Implicit Types (w : @World Figure Table) (c df : DataFrame).

Lemma bind_Ok {A B} (m : @App Figure Table A) (f : A → @App Figure Table B) w w' a :
  m w = (w', Ok a) → (m ≫= f) w = f a w'.
Proof. intros H. unfold mbind, App_bind. by rewrite H. Qed.

Lemma bind_Raise {A B} (m : @App Figure Table A) (f : A → @App Figure Table B) w w' e :
  m w = (w', Raise e) → (m ≫= f) w = (w', Raise e).
Proof. intros H. unfold mbind, App_bind. by rewrite H. Qed.

Lemma keeps_cache_ret {A} c (a : A) : keeps_cache c (mret a : @App Figure Table A).
Proof. by intros w _. Qed.

Lemma keeps_cache_lift {A} c (r : result A) :
  keeps_cache c (lift r : @App Figure Table A).
Proof. by intros w _. Qed.

Lemma keeps_cache_st c where_ (e : @element Figure Table) :
  keeps_cache c (st where_ e).
Proof. by intros w _. Qed.

Lemma keeps_cache_bind {A B} c (m : @App Figure Table A) (f : A → @App Figure Table B) :
  keeps_cache c m → (∀ a, keeps_cache c (f a)) → keeps_cache c (m ≫= f).
Proof.
  intros Hm Hf w Hw. specialize (Hm w Hw).
  destruct (m w) as [w' [a|e]] eqn:E; simpl in Hm.
  - rewrite (bind_Ok _ _ _ _ _ E). rewrite Hf; [done|]. by rewrite Hm.
  - by rewrite (bind_Raise _ _ _ _ _ E).
Qed.

(** With the cleaned table cached, the caching block returns it and
    changes nothing. *)
Lemma cached_cleaning_hit c df_filtered w :
  session_state w !! "df_cleaned" = Some c →
  cached_cleaning df_filtered w = (w, Ok c).
Proof.
  intros Hw. unfold cached_cleaning, session_contains, session_get,
    mbind, App_bind, mret, App_ret.
  simpl. rewrite Hw. rewrite bool_decide_eq_true_2 by done. simpl.
  by rewrite Hw.
Qed.

Lemma keeps_cache_cached_cleaning c df_filtered :
  keeps_cache c (@cached_cleaning Figure Table df_filtered).
Proof. intros w Hw. by rewrite (cached_cleaning_hit _ _ _ Hw). Qed.
End runs.

Create HintDb cache.
#[local] Hint Resolve keeps_cache_ret keeps_cache_lift keeps_cache_st
  keeps_cache_cached_cleaning : cache.

(** A chain of binds keeps the cache when each of its steps does. *)
Ltac keeps_cache :=
  repeat first
    [ solve [auto with cache]
    | progress unfold st_multiselect, st_slider_int, st_slider_float
    | apply keeps_cache_bind; [|intros ?]
    | case_bool_decide
    | match goal with |- keeps_cache _ (match ?l with _ => _ end) => destruct l end
    | match goal with |- keeps_cache _ (if ?b then _ else _) => destruct b end ].

Section views.
Context {Figure Table : Type} (lib : @Library Figure Table).
Implicit Types (w : @World Figure Table) (c df : DataFrame).

Lemma keeps_cache_introduction c : keeps_cache c (@introduction Figure Table).
Proof. unfold introduction. keeps_cache. Qed.

Lemma keeps_cache_conclusion c : keeps_cache c (@conclusion Figure Table).
Proof. unfold conclusion. keeps_cache. Qed.

Lemma keeps_cache_data_cleaning_and_describing c df df_cleaned :
  keeps_cache c (data_cleaning_and_describing lib df df_cleaned).
Proof. unfold data_cleaning_and_describing. keeps_cache. Qed.

Lemma keeps_cache_data_visualization c df_cleaned ui :
  keeps_cache c (data_visualization lib df_cleaned ui).
Proof.
  unfold data_visualization, heatmap_tab, boxplot_tab, quality_tab, pairplot_tab,
    st_multiselect.
  keeps_cache.
Qed.

Hint Resolve keeps_cache_introduction keeps_cache_conclusion
  keeps_cache_data_cleaning_and_describing keeps_cache_data_visualization : cache.

Lemma keeps_cache_main c df ui : keeps_cache c (main lib df ui).
Proof. unfold main, st_slider_int, st_slider_float. keeps_cache. Qed.

Lemma rerun_cached c df ui w :
  session_state w !! "df_cleaned" = Some c →
  session_state (rerun lib df w ui) = session_state w.
Proof. intros Hw. unfold rerun. by rewrite keeps_cache_main. Qed.

Lemma session_cached c df uis w :
  session_state w !! "df_cleaned" = Some c →
  session_state (session lib df uis w) = session_state w.
Proof.
  unfold session. revert w. induction uis as [|ui uis IH]; intros w Hw; [done|].
  simpl. rewrite IH; [by eapply rerun_cached|].
  by erewrite rerun_cached.
Qed.
End views.

(* ================================================================= *)
(** * The statistics page and the chart tabs *)

Section pages.
Context {Figure Table : Type} (lib : @Library Figure Table).
Implicit Types (w : @World Figure Table) (df d : DataFrame).

(** When the statistics calls succeed, their table is drawn. *)
Lemma data_cleaning_and_describing_Ok df d styled w :
  (t ← desc_stats lib d; highlight_max lib t) = Ok styled →
  ∃ p, data_cleaning_and_describing lib df d w
       = (mkWorld (session_state w) (page w ++ p), Ok ())
     ∧ (Tab "Descriptive Statistics", dataframe_styled styled) ∈ p.
Proof.
  intros H. destruct (desc_stats lib d) as [t|e] eqn:Et; [|done].
  cbn [mbind result_bind] in H.
  unfold data_cleaning_and_describing, mbind, App_bind, st, lift. simpl.
  rewrite Et, H. simpl. rewrite <- !app_assoc. simpl.
  eexists. split; [reflexivity|].
  do 13 apply list_elem_of_further. apply list_elem_of_here.
Qed.

(** When one of them raises, the page raises with it. *)
Lemma data_cleaning_and_describing_Raise df d e w :
  (t ← desc_stats lib d; highlight_max lib t) = Raise e →
  (data_cleaning_and_describing lib df d w).2 = Raise e.
Proof.
  intros H.
  unfold data_cleaning_and_describing, mbind, App_bind, st, lift. simpl.
  destruct (desc_stats lib d) as [t|e'] eqn:Et.
  - cbn [mbind result_bind] in H. by rewrite H.
  - cbn [mbind result_bind] in H. by injection H as ->.
Qed.

Lemma boxplot_tab_nil d w :
  Forall (λ c, c ∈ columns d) ["fixed acidity"; "volatile acidity"; "quality"] →
  boxplot_tab lib d [] w
  = (mkWorld (session_state w)
       (page w ++
        [(Tab "Boxplot", subheader "Boxplot of Key Features");
         (Tab "Boxplot",
          multiselect "Select features to display boxplots:" (columns d)
            ["fixed acidity"; "volatile acidity"; "quality"])]),
     Ok ()).
Proof.
  intros Hd. unfold boxplot_tab, st_multiselect.
  rewrite bool_decide_eq_true_2 by done.
  unfold mbind, App_bind, mret, App_ret, st. simpl.
  by rewrite <- app_assoc.
Qed.

Lemma pairplot_tab_nil d w :
  Forall (λ c, c ∈ columns d)
    ["fixed acidity"; "volatile acidity"; "citric acid"; "alcohol"; "quality"] →
  pairplot_tab lib d [] w
  = (mkWorld (session_state w)
       (page w ++
        [(Tab "Pairplot", subheader "Pairplot of Key Features");
         (Tab "Pairplot",
          multiselect "Select features for pairplot:" (columns d)
            ["fixed acidity"; "volatile acidity"; "citric acid"; "alcohol"; "quality"])]),
     Ok ()).
Proof.
  intros Hd. unfold pairplot_tab, st_multiselect.
  rewrite bool_decide_eq_true_2 by done.
  unfold mbind, App_bind, mret, App_ret, st. simpl.
  by rewrite <- app_assoc.
Qed.

(** A default that is not a column stops the tab at its multiselect,
    whatever would have been selected. *)
Lemma boxplot_tab_missing_default d selected w :
  ¬ Forall (λ c, c ∈ columns d) ["fixed acidity"; "volatile acidity"; "quality"] →
  boxplot_tab lib d selected w
  = (mkWorld (session_state w)
       (page w ++ [(Tab "Boxplot", subheader "Boxplot of Key Features")]),
     Raise StreamlitAPIException).
Proof.
  intros Hd. unfold boxplot_tab, st_multiselect.
  rewrite bool_decide_eq_false_2 by done.
  unfold mbind, App_bind, st, lift. done.
Qed.
End pages.

(* ================================================================= *)
(** * The cleaned table *)

Lemma spec_cleaning_no_Id_column (df : DataFrame) :
  "Id" ∉ columns (spec_cleaning df).
Proof. rewrite spec_cleaning_columns. by intros [? _]%list_elem_of_filter. Qed.

Lemma spec_cleaning_row (df : DataFrame) (r : Row) :
  r ∈ rows (spec_cleaning df) →
  ∃ r0, r = without_id r0 ∧ r0 ∈ surviving_rows df.
Proof. rewrite spec_cleaning_rows. apply list_elem_of_fmap. Qed.

Lemma spec_cleaning_acidity (df : DataFrame) (r : Row) :
  r ∈ rows (spec_cleaning df) →
  strictly_within 0 15 (cells r !! "fixed acidity").
Proof.
  intros (r0 & -> & Hr0)%spec_cleaning_row.
  apply surviving_rows_spec in Hr0 as (_ & _ & Hacid).
  simpl. by rewrite lookup_delete_ne.
Qed.

Lemma spec_cleaning_complete (df : DataFrame) (r : Row) :
  r ∈ rows (spec_cleaning df) →
  no_missing_field (columns (spec_cleaning df)) r.
Proof.
  intros (r0 & -> & Hr0)%spec_cleaning_row.
  apply surviving_rows_spec in Hr0 as (_ & Hc & _).
  unfold no_missing_field in *. rewrite Forall_forall in Hc.
  apply Forall_forall. intros c [Hne Hin]%list_elem_of_filter.
  simpl. rewrite lookup_delete_ne by done. auto.
Qed.

Lemma dropna_id (d : DataFrame) :
  Forall (no_missing_field (columns d)) (rows d) → dropna d = d.
Proof.
  intros H. rewrite dropna_eq. unfold spec_drop_missing.
  rewrite filter_Forall_id by done. by destruct d.
Qed.

Lemma acidity_filter_id (d : DataFrame) :
  "fixed acidity" ∈ columns d →
  Forall (λ r, strictly_within 0 15 (cells r !! "fixed acidity")) (rows d) →
  (fa_lo ← getitem d "fixed acidity";
   fa_hi ← getitem d "fixed acidity";
   getitem_mask d (series_and (series_gt fa_lo 0) (series_lt fa_hi 15)))
  = Ok d.
Proof.
  intros Hc H. rewrite (getitem_Some _ _ Hc). cbn [mbind result_bind].
  rewrite acidity_bound_eq. unfold spec_acidity_bound.
  rewrite filter_Forall_id by done. by destruct d.
Qed.

Lemma cleaning_pipeline_again (df : DataFrame) :
  cleaning_pipeline (spec_cleaning df) = Raise (KeyError "Id").
Proof.
  rewrite cleaning_pipeline_eq.
  rewrite (bool_decide_eq_false_2 _ (spec_cleaning_no_Id_column df)). done.
Qed.

(** The empty table with the columns of [df] is cleaned to the empty
    table. *)
Lemma spec_cleaning_empty (cols : list string) :
  spec_cleaning (mkDataFrame cols [])
  = mkDataFrame (filter (λ c, c ≠ "Id") cols) [].
Proof. done. Qed.

Lemma filter_Forall_nil {A} (P : A → Prop) `{!∀ x, Decision (P x)} (l : list A) :
  Forall (λ x, ¬ P x) l → filter P l = [].
Proof.
  induction 1 as [|x l Hx _ IH]; [done|]. by rewrite filter_cons_False.
Qed.

Section first_run.
Context {Figure Table : Type}.
Implicit Types (w : @World Figure Table).

(** Without a cached table, the caching block cleans its argument and
    stores the result. *)
Lemma cached_cleaning_miss df_filtered d w :
  session_state w !! "df_cleaned" = None →
  cleaning_pipeline df_filtered = Ok d →
  cached_cleaning df_filtered w
  = (mkWorld (<["df_cleaned" := d]> (session_state w)) (page w), Ok d).
Proof.
  intros Hw Hd. unfold cached_cleaning, session_contains, session_get,
    session_set, lift, mbind, App_bind, mret, App_ret.
  simpl. rewrite Hw. rewrite bool_decide_eq_false_2 by (by intros [? ?]).
  simpl. rewrite Hd. simpl. by rewrite lookup_insert_eq.
Qed.
End first_run.


(* ================================================================= *)
(** * Column minimum and maximum, and truncation *)

Lemma series_min_None (s : Series) :
  series_min s = None → ∀ q, Some q ∉ s.
Proof.
  induction s as [|[p|] s IH]; simpl; intros H q Hq.
  - by apply elem_of_nil in Hq.
  - by destruct (series_min s).
  - apply elem_of_cons in Hq as [Hq|Hq]; [done|]. by eapply IH.
Qed.

Lemma series_max_None (s : Series) :
  series_max s = None → ∀ q, Some q ∉ s.
Proof.
  induction s as [|[p|] s IH]; simpl; intros H q Hq.
  - by apply elem_of_nil in Hq.
  - by destruct (series_max s).
  - apply elem_of_cons in Hq as [Hq|Hq]; [done|]. by eapply IH.
Qed.

Lemma series_min_all_None (s : Series) :
  Forall (λ v, v = None) s → series_min s = None.
Proof. induction 1 as [|v s -> _ IH]; [done|]. done. Qed.

Lemma series_min_elem (s : Series) (m : Q) :
  series_min s = Some m → Some m ∈ s.
Proof.
  revert m. induction s as [|[p|] s IH]; simpl; intros m H; [done| |].
  - destruct (series_min s) as [m'|] eqn:E.
    + destruct (Qle_bool p m'); injection H as <-; [left|right; by apply IH].
    + injection H as <-. left.
  - right. by apply IH.
Qed.

Lemma series_max_elem (s : Series) (m : Q) :
  series_max s = Some m → Some m ∈ s.
Proof.
  revert m. induction s as [|[p|] s IH]; simpl; intros m H; [done| |].
  - destruct (series_max s) as [m'|] eqn:E.
    + destruct (Qle_bool m' p); injection H as <-; [left|right; by apply IH].
    + injection H as <-. left.
  - right. by apply IH.
Qed.

Lemma Qle_bool_false (x y : Q) : Qle_bool x y = false → (y <= x)%Q.
Proof.
  intros H. apply Qlt_le_weak, Qnot_le_lt. intros Hle.
  apply Qle_bool_iff in Hle. congruence.
Qed.

Lemma series_min_le (s : Series) (m q : Q) :
  series_min s = Some m → Some q ∈ s → (m <= q)%Q.
Proof.
  revert m. induction s as [|[p|] s IH]; simpl; intros m H Hq.
  - by apply elem_of_nil in Hq.
  - apply elem_of_cons in Hq as [Hq|Hq].
    + injection Hq as ->. destruct (series_min s) as [m'|].
      * destruct (Qle_bool p m') eqn:E; injection H as <-;
          [apply Qle_refl | by apply Qle_bool_false].
      * injection H as <-. apply Qle_refl.
    + destruct (series_min s) as [m'|] eqn:Em.
      * specialize (IH m' eq_refl Hq).
        destruct (Qle_bool p m') eqn:E; injection H as <-; [|done].
        apply Qle_bool_iff in E. by eapply Qle_trans.
      * by apply (series_min_None s Em) in Hq.
  - apply elem_of_cons in Hq as [Hq|Hq]; [done|]. by apply IH.
Qed.

Lemma series_max_ge (s : Series) (m q : Q) :
  series_max s = Some m → Some q ∈ s → (q <= m)%Q.
Proof.
  revert m. induction s as [|[p|] s IH]; simpl; intros m H Hq.
  - by apply elem_of_nil in Hq.
  - apply elem_of_cons in Hq as [Hq|Hq].
    + injection Hq as ->. destruct (series_max s) as [m'|].
      * destruct (Qle_bool m' p) eqn:E; injection H as <-;
          [apply Qle_refl | by apply Qle_bool_false].
      * injection H as <-. apply Qle_refl.
    + destruct (series_max s) as [m'|] eqn:Em.
      * specialize (IH m' eq_refl Hq).
        destruct (Qle_bool m' p) eqn:E; injection H as <-; [|done].
        apply Qle_bool_iff in E. by eapply Qle_trans.
      * by apply (series_max_None s Em) in Hq.
  - apply elem_of_cons in Hq as [Hq|Hq]; [done|]. by apply IH.
Qed.

(** [int(x)] gives back an integer unchanged. *)
Lemma to_int_integral (q : Q) :
  integral q → ∃ z, to_int (Some q) = Ok z ∧ (q == inject_Z z)%Q.
Proof.
  intros [z Hz]. exists z. split; [|done]. simpl. f_equal.
  unfold Qeq in Hz. simpl in Hz. rewrite Z.mul_1_r in Hz. rewrite Hz.
  by apply Z.quot_mul.
Qed.

(* ================================================================= *)
(** * Duplicates and missing values *)

Lemma filter_ext_in {A} (P1 P2 : A → Prop)
    `{!∀ x, Decision (P1 x), !∀ x, Decision (P2 x)} (l : list A) :
  (∀ x, x ∈ l → (P1 x ↔ P2 x)) → filter P1 l = filter P2 l.
Proof.
  induction l as [|x l IH]; intros Hext; [done|].
  rewrite !filter_cons, IH by (intros y Hy; apply Hext; by right).
  destruct (decide (P1 x)) as [H1|H1], (decide (P2 x)) as [H2|H2];
    try done; exfalso; [apply H2|apply H1]; apply (Hext x); by try left.
Qed.

Lemma filter_eq_Forall {A} (P : A → Prop) `{!∀ x, Decision (P x)} (l : list A) :
  filter P l = l → Forall P l.
Proof. intros <-. apply Forall_filter_id. Qed.

Lemma length_filter_zero {A} (P : A → Prop) `{!∀ x, Decision (P x)} (l : list A) :
  length (filter P l) = 0 ↔ Forall (λ x, ¬ P x) l.
Proof.
  split.
  - intros Hl%nil_length_inv. apply Forall_forall. intros x Hx HP.
    by eapply filter_nil_not_elem_of.
  - intros Hl. by rewrite filter_Forall_nil.
Qed.

Section pairs.
Context {A : Type} (R : A → A → Prop).

Lemma pairwise_filter (P : A → Prop) `{!∀ x, Decision (P x)} (l : list A) :
  pairwise R l → pairwise R (filter P l).
Proof.
  induction l as [|x l IH]; [done|]. intros [Hx Hl]. rewrite filter_cons.
  destruct (decide (P x)); [|by apply IH]. split; [|by apply IH].
  apply Forall_forall. intros y [_ Hy]%list_elem_of_filter.
  rewrite Forall_forall in Hx. auto.
Qed.

Lemma pairwise_impl (R' : A → A → Prop) (l : list A) :
  (∀ x y, R x y → R' x y) → pairwise R l → pairwise R' l.
Proof.
  intros H. induction l as [|x l IH]; [done|]. intros [Hx Hl].
  split; [|by apply IH]. eapply Forall_impl; [exact Hx|]. auto.
Qed.
End pairs.

Lemma first_occurrences_pairwise (cols : list string) (l : list Row) :
  pairwise (λ r x, ¬ exact_duplicate cols r x) (first_occurrences cols l).
Proof.
  induction l as [|r l IH]; [done|]. simpl. split.
  - apply Forall_filter_id.
  - by apply pairwise_filter.
Qed.

Lemma first_occurrences_id (cols : list string) (l : list Row) :
  pairwise (λ r x, ¬ exact_duplicate cols r x) l → first_occurrences cols l = l.
Proof.
  induction l as [|r l IH]; [done|]. intros [Hr Hl]. simpl.
  rewrite IH by done. by rewrite filter_Forall_id.
Qed.

Lemma exact_duplicate_column (cols : list string) (c : string) (r x : Row) :
  c ∈ cols → exact_duplicate cols r x → same_value (cells r !! c) (cells x !! c).
Proof.
  intros Hc H. unfold exact_duplicate in H. rewrite Forall_forall in H. auto.
Qed.

Lemma no_missing_field_lookup (cols : list string) (r : Row) :
  no_missing_field cols r ↔ ∀ c, c ∈ cols → cells r !! c ≠ None.
Proof.
  unfold no_missing_field. rewrite Forall_forall.
  split; intros H c Hc; specialize (H c Hc).
  - by destruct H as [q ->].
  - by destruct (cells r !! c); [eexists|].
Qed.

Lemma filter_layer_Ok (df f : DataFrame) (qf : Z * Z) (af : Q * Q) :
  filter_layer df qf af = Ok f →
  "quality" ∈ columns df ∧ "alcohol" ∈ columns df
  ∧ f = mkDataFrame (columns df) (filter (in_filter_ranges qf af) (rows df)).
Proof.
  rewrite filter_layer_eq. repeat case_bool_decide; intros Hf; try discriminate Hf.
  by injection Hf as <-.
Qed.

Lemma getitem_Ok (df : DataFrame) (c : string) (s : Series) :
  getitem df c = Ok s → c ∈ columns df ∧ s = (λ r, cells r !! c) <$> rows df.
Proof.
  unfold getitem. case_bool_decide; intros Hs; [|discriminate Hs].
  by injection Hs as <-.
Qed.

Lemma to_int_Ok (v : option Q) (z : Z) :
  to_int v = Ok z → ∃ q, v = Some q ∧ to_int (Some q) = Ok z.
Proof. destruct v as [q|]; [|done]. intros Hz. by exists q. Qed.

Lemma row_set_lookup (c : string) (v : option Q) (r : Row) :
  cells (row_set c v r) !! c = v.
Proof.
  destruct v; simpl; [apply lookup_insert_eq | apply lookup_delete_eq].
Qed.

Lemma row_set_lookup_ne (c c' : string) (v : option Q) (r : Row) :
  c ≠ c' → cells (row_set c v r) !! c' = cells r !! c'.
Proof.
  intros Hne. destruct v; simpl;
    [by apply lookup_insert_ne | by apply lookup_delete_ne].
Qed.

Lemma assign_rows_lookup (c : string) (s : Series) (l : list Row) :
  length s = length l →
  (λ r, cells r !! c) <$> assign_rows c s l = s.
Proof.
  revert s. induction l as [|r l IH]; intros [|v s] Hlen; try done.
  cbn [assign_rows]. rewrite fmap_cons, row_set_lookup, IH; [done|].
  simpl in Hlen. lia.
Qed.

Lemma assign_rows_lookup_ne (c c' : string) (s : Series) (l : list Row) :
  c ≠ c' →
  (λ r, cells r !! c') <$> assign_rows c s l = (λ r, cells r !! c') <$> l.
Proof.
  intros Hne. revert s. induction l as [|r l IH]; intros [|v s]; try done;
    cbn [assign_rows]; by rewrite !fmap_cons, row_set_lookup_ne, IH.
Qed.

Lemma assign_rows_label (c : string) (s : Series) (l : list Row) :
  label <$> assign_rows c s l = label <$> l.
Proof.
  revert s. induction l as [|r l IH]; intros [|v s]; try done;
    cbn [assign_rows]; by rewrite !fmap_cons, IH.
Qed.

(* ================================================================= *)
(** * What every run keeps *)

Section invariants.
Context {Figure Table : Type}.
Implicit Types (w : @World Figure Table) (R : relation (@World Figure Table)).

#[global] Instance same_session_preorder : PreOrder (@same_session Figure Table).
Proof.
  split; [intros w; by unfold same_session|].
  intros w1 w2 w3 H12 H23. unfold same_session in *. congruence.
Qed.

#[global] Instance same_other_keys_preorder key :
  PreOrder (@same_other_keys Figure Table key).
Proof.
  split; [intros w k; by unfold same_other_keys|].
  intros w1 w2 w3 H12 H23 k Hk. by rewrite H23, H12.
Qed.

#[global] Instance page_extended_preorder : PreOrder (@page_extended Figure Table).
Proof.
  split; [intros w; by unfold page_extended|].
  intros w1 w2 w3 H12 H23. unfold page_extended in *. by etrans.
Qed.

Lemma always_ret R `{!Reflexive R} {A} (a : A) :
  always R (mret a : @App Figure Table A).
Proof. intros w. simpl. reflexivity. Qed.

Lemma always_lift R `{!Reflexive R} {A} (r : result A) :
  always R (lift r : @App Figure Table A).
Proof. intros w. simpl. reflexivity. Qed.

Lemma always_session_contains R `{!Reflexive R} key :
  always R (@session_contains Figure Table key).
Proof. intros w. simpl. reflexivity. Qed.

Lemma always_session_get R `{!Reflexive R} key :
  always R (@session_get Figure Table key).
Proof. intros w. simpl. reflexivity. Qed.

Lemma always_bind R `{!Transitive R} {A B}
    (m : @App Figure Table A) (f : A → @App Figure Table B) :
  always R m → (∀ a, always R (f a)) → always R (m ≫= f).
Proof.
  intros Hm Hf w. specialize (Hm w).
  destruct (m w) as [w' [a|e]] eqn:E; simpl in Hm.
  - rewrite (bind_Ok _ _ _ _ _ E). etrans; [exact Hm|apply Hf].
  - by rewrite (bind_Raise _ _ _ _ _ E).
Qed.

Lemma same_session_st where_ (e : @element Figure Table) :
  always same_session (st where_ e).
Proof. intros w. by unfold same_session. Qed.

Lemma same_other_keys_st key where_ (e : @element Figure Table) :
  always (same_other_keys key) (st where_ e).
Proof. intros w k. by unfold same_other_keys. Qed.

Lemma page_extended_st where_ (e : @element Figure Table) :
  always page_extended (st where_ e).
Proof. intros w. unfold page_extended. simpl. by apply prefix_app_r. Qed.

Lemma same_other_keys_session_set key v :
  always (same_other_keys key) (@session_set Figure Table key v).
Proof. intros w k Hk. simpl. by rewrite lookup_insert_ne. Qed.

Lemma page_extended_session_set key v :
  always page_extended (@session_set Figure Table key v).
Proof. intros w. by unfold page_extended. Qed.
End invariants.

Create HintDb runs.
#[local] Hint Resolve always_ret always_lift always_session_contains
  always_session_get same_session_st same_other_keys_st page_extended_st
  same_other_keys_session_set page_extended_session_set : runs.
#[local] Hint Extern 1 (Reflexive _) => apply _ : runs.

(** A chain of binds is related by a preorder when each step is. *)
Ltac always_steps :=
  repeat first
    [ solve [auto with runs]
    | progress unfold st_multiselect, st_slider_int, st_slider_float
    | apply always_bind; [apply _| |intros ?]
    | case_bool_decide
    | match goal with |- always _ (match ?l with _ => _ end) => destruct l end
    | match goal with |- always _ (if ?b then _ else _) => destruct b end ].

Section view_invariants.
Context {Figure Table : Type} (lib : @Library Figure Table).
Implicit Types (w : @World Figure Table).

Lemma same_session_introduction : always same_session (@introduction Figure Table).
Proof. unfold introduction. always_steps. Qed.

Lemma same_session_conclusion : always same_session (@conclusion Figure Table).
Proof. unfold conclusion. always_steps. Qed.

Lemma same_session_data_cleaning_and_describing df df_cleaned :
  always same_session (data_cleaning_and_describing lib df df_cleaned).
Proof. unfold data_cleaning_and_describing. always_steps. Qed.

Lemma same_session_data_visualization df_cleaned ui :
  always same_session (data_visualization lib df_cleaned ui).
Proof.
  unfold data_visualization, heatmap_tab, boxplot_tab, quality_tab, pairplot_tab,
    st_multiselect.
  always_steps.
Qed.

Lemma page_extended_introduction : always page_extended (@introduction Figure Table).
Proof. unfold introduction. always_steps. Qed.

Lemma page_extended_conclusion : always page_extended (@conclusion Figure Table).
Proof. unfold conclusion. always_steps. Qed.

Lemma page_extended_data_cleaning_and_describing df df_cleaned :
  always page_extended (data_cleaning_and_describing lib df df_cleaned).
Proof. unfold data_cleaning_and_describing. always_steps. Qed.

Lemma page_extended_data_visualization df_cleaned ui :
  always page_extended (data_visualization lib df_cleaned ui).
Proof.
  unfold data_visualization, heatmap_tab, boxplot_tab, quality_tab, pairplot_tab,
    st_multiselect.
  always_steps.
Qed.

Lemma same_other_keys_main df ui :
  always (same_other_keys "df_cleaned") (main lib df ui).
Proof.
  unfold main, cached_cleaning, st_slider_int, st_slider_float. always_steps.
Qed.

Lemma page_extended_main df ui : always page_extended (main lib df ui).
Proof.
  unfold main, cached_cleaning, st_slider_int, st_slider_float. always_steps.
Qed.
End view_invariants.

(* ================================================================= *)
(** * Stepping through a run *)

(** Run the drawing call or the successful library call at the head of a
    chain of binds. *)
Ltac run_step :=
  first
    [ erewrite bind_Ok by reflexivity
    | erewrite bind_Ok
        by (unfold lift; apply f_equal2; [reflexivity|eassumption]) ];
  cbv beta.

Section main_runs.
Context {Figure Table : Type} (lib : @Library Figure Table).
Implicit Types (w : @World Figure Table).

Lemma series_min_is_Some (s : Series) (q : Q) :
  Some q ∈ s → is_Some (series_min s).
Proof.
  intros Hq. destruct (series_min s) eqn:E; [by eexists|].
  by apply (series_min_None s E) in Hq.
Qed.

Lemma series_max_is_Some (s : Series) (q : Q) :
  Some q ∈ s → is_Some (series_max s).
Proof.
  intros Hq. destruct (series_max s) eqn:E; [by eexists|].
  by apply (series_max_None s E) in Hq.
Qed.

Lemma st_slider_int_Ok where_ label (min_value max_value : Z) w :
  (min_value < max_value)%Z →
  st_slider_int where_ label min_value max_value w
  = (mkWorld (session_state w)
       (page w ++ [(where_, slider_int label min_value max_value)]),
     Ok ()).
Proof. intros H. unfold st_slider_int. by rewrite bool_decide_eq_true_2. Qed.

Lemma st_slider_int_Raise where_ label (min_value max_value : Z) w :
  ¬ (min_value < max_value)%Z →
  st_slider_int where_ label min_value max_value w
  = (w, Raise StreamlitAPIException).
Proof. intros H. unfold st_slider_int. by rewrite bool_decide_eq_false_2. Qed.

Lemma st_slider_float_Ok where_ label (min_value max_value : option Q) lo hi w :
  min_value = Some lo → max_value = Some hi → (lo < hi)%Q →
  st_slider_float where_ label min_value max_value w
  = (mkWorld (session_state w)
       (page w ++ [(where_, slider_float label min_value max_value)]),
     Ok ()).
Proof.
  intros -> -> H%Qlt_bool_iff. unfold st_slider_float. by rewrite H.
Qed.

(** A run whose two sliders can be drawn and whose filter returns gets as
    far as the caching block: the sidebar is drawn, with the download of
    the filtered table, and what follows the caching block leaves the
    session state alone. *)
Lemma main_reaches_cache df df_filtered ui w
    (quality alcohol : Series) (quality_min quality_max : Z)
    (alcohol_min alcohol_max : Q) :
  getitem df "quality" = Ok quality →
  to_int (series_min quality) = Ok quality_min →
  to_int (series_max quality) = Ok quality_max →
  (quality_min < quality_max)%Z →
  getitem df "alcohol" = Ok alcohol →
  series_min alcohol = Some alcohol_min →
  series_max alcohol = Some alcohol_max →
  (alcohol_min < alcohol_max)%Q →
  filter_layer df (quality_filter ui) (alcohol_filter ui) = Ok df_filtered →
  ∃ p rest,
    main lib df ui w
    = (cached_cleaning df_filtered ≫= rest)
        (mkWorld (session_state w) (page w ++ p))
    ∧ (Sidebar, download_button "Download Filtered Data as CSV"
                  (to_csv lib df_filtered) "filtered_wine_quality.csv" "text/csv")
      ∈ p
    ∧ (∀ d, always same_session (rest d))
    ∧ (∀ d, always page_extended (rest d)).
Proof.
  intros Hgq Hmin Hmax Hq Hga Halo Hahi Ha Hf.
  pose proof (getitem_Ok _ _ _ Hgq) as [_ ->].
  pose proof (getitem_Ok _ _ _ Hga) as [_ ->].
  eexists _, _. split; [|split; [|split]].
  - unfold main. do 7 run_step.
    erewrite bind_Ok by (by apply st_slider_int_Ok). cbv beta.
    do 2 run_step.
    erewrite bind_Ok by (by eapply st_slider_float_Ok). cbv beta.
    do 4 run_step.
    simpl. rewrite <- !app_assoc. reflexivity.
  - simpl. do 7 apply list_elem_of_further. apply list_elem_of_here.
  - intros d. always_steps; auto using same_session_introduction,
      same_session_conclusion, same_session_data_cleaning_and_describing,
      same_session_data_visualization.
  - intros d. always_steps; auto using page_extended_introduction,
      page_extended_conclusion, page_extended_data_cleaning_and_describing,
      page_extended_data_visualization.
Qed.
End main_runs.

Section cache_runs.
Context {Figure Table : Type} (lib : @Library Figure Table).
Implicit Types (w : @World Figure Table).

Lemma cached_cleaning_fail df_filtered e w :
  session_state w !! "df_cleaned" = None →
  cleaning_pipeline df_filtered = Raise e →
  cached_cleaning df_filtered w = (w, Raise e).
Proof.
  intros Hw Hd. unfold cached_cleaning, session_contains, session_get,
    session_set, lift, mbind, App_bind, mret, App_ret.
  simpl. rewrite Hw. rewrite bool_decide_eq_false_2 by (by intros [? ?]).
  simpl. by rewrite Hd.
Qed.

Lemma page_extended_cached_cleaning df_filtered :
  always page_extended (@cached_cleaning Figure Table df_filtered).
Proof. unfold cached_cleaning. always_steps. Qed.

Lemma prefix_elem_of {A} (l1 l2 : list A) (x : A) :
  l1 `prefix_of` l2 → x ∈ l1 → x ∈ l2.
Proof. intros [k ->] Hx. apply elem_of_app. by left. Qed.

Lemma getitem_columns_Some (df : DataFrame) (cs : list string) :
  Forall (λ c, c ∈ columns df) cs →
  getitem_columns df cs = Ok (mkDataFrame cs (row_select cs <$> rows df)).
Proof.
  intros H. unfold getitem_columns.
  rewrite (filter_Forall_nil (λ c, c ∉ columns df)); [done|].
  eapply Forall_impl; [exact H|]. intros c Hc Hn. by apply Hn.
Qed.

Lemma row_select_lookup (cs : list string) (r : Row) (c : string) :
  cells (row_select cs r) !! c = if decide (c ∈ cs) then cells r !! c else None.
Proof.
  unfold row_select. simpl. case_decide as Hc.
  - destruct (cells r !! c) as [q|] eqn:E.
    + by apply map_lookup_filter_Some.
    + apply map_lookup_filter_None. left. done.
  - apply map_lookup_filter_None. right. intros q _. done.
Qed.
End cache_runs.

(* ================================================================= *)
(** * The filter layer *)

(** C1.  For every raw table (with its quality and alcohol columns) and
    every pair of ranges, integer bounds for quality and rational bounds for
    alcohol, the filter layer returns the table of exactly the rows whose
    quality and alcohol lie within the inclusive bounds: the rows of the
    input that satisfy both predicates, in their order; every returned row
    satisfies both, and every row of the input that satisfies both is
    returned. *)
Theorem filter_layer_returns_exactly
    (df : DataFrame) (quality_filter : Z * Z) (alcohol_filter : Q * Q) :
  "quality" ∈ columns df →
  "alcohol" ∈ columns df →
  ∃ df_filtered,
    filter_layer df quality_filter alcohol_filter = Ok df_filtered
    ∧ columns df_filtered = columns df
    ∧ rows df_filtered
      = filter (in_filter_ranges quality_filter alcohol_filter) (rows df)
    ∧ (∀ r, r ∈ rows df_filtered →
            in_filter_ranges quality_filter alcohol_filter r)
    ∧ (∀ r, r ∈ rows df →
            in_filter_ranges quality_filter alcohol_filter r →
            r ∈ rows df_filtered).
Proof.
  intros Hq Ha. rewrite filter_layer_eq, !bool_decide_eq_true_2 by done.
  eexists. split; [reflexivity|]. simpl. split; [done|]. split; [done|]. split.
  - by intros r [? _]%list_elem_of_filter.
  - intros r Hr Hp. by apply list_elem_of_filter.
Qed.

Lemma filter_layer_returns_exactly_witness :
  ("quality" ∈ columns wine ∧ "alcohol" ∈ columns wine)
  ∧ ∃ df_filtered,
      filter_layer wine (5, 5)%Z (9, 10)%Q = Ok df_filtered
      ∧ columns df_filtered = columns wine
      ∧ rows df_filtered = filter (in_filter_ranges (5, 5)%Z (9, 10)%Q) (rows wine)
      ∧ (∀ r, r ∈ rows df_filtered → in_filter_ranges (5, 5)%Z (9, 10)%Q r)
      ∧ (∀ r, r ∈ rows wine → in_filter_ranges (5, 5)%Z (9, 10)%Q r →
              r ∈ rows df_filtered).
Proof.
  assert (Hq : "quality" ∈ columns wine) by compute_done.
  assert (Ha : "alcohol" ∈ columns wine) by compute_done.
  split; [done|].
  exact (filter_layer_returns_exactly wine (5, 5)%Z (9, 10)%Q Hq Ha).
Defined.

(* ================================================================= *)
(** * The cleaning pipeline *)

(** C2.  On every table with an Id and a fixed-acidity column, the cleaning
    pipeline returns the composition, in this order, of: dropping the rows
    with a missing field, dropping exact duplicates (first occurrence kept,
    assessed before the Id coercion), coercing Id to integer, keeping the
    rows with 0 < fixed acidity < 15, dropping the Id column. *)
Theorem cleaning_pipeline_is_fixed_sequence (df : DataFrame) :
  "Id" ∈ columns df →
  "fixed acidity" ∈ columns df →
  cleaning_pipeline df
  = Ok (spec_drop_id
          (spec_acidity_bound
             (spec_coerce_id
                (spec_drop_duplicates
                   (spec_drop_missing df))))).
Proof.
  intros Hid Hfa. by rewrite cleaning_pipeline_eq, !bool_decide_eq_true_2.
Qed.

Lemma cleaning_pipeline_is_fixed_sequence_witness :
  ("Id" ∈ columns wine ∧ "fixed acidity" ∈ columns wine)
  ∧ cleaning_pipeline wine
    = Ok (spec_drop_id
            (spec_acidity_bound
               (spec_coerce_id
                  (spec_drop_duplicates
                     (spec_drop_missing wine))))).
Proof.
  assert (Hid : "Id" ∈ columns wine) by compute_done.
  assert (Hfa : "fixed acidity" ∈ columns wine) by compute_done.
  split; [done|].
  exact (cleaning_pipeline_is_fixed_sequence wine Hid Hfa).
Defined.

(** Duplicates are assessed before the Id coercion: the two rows of
    [fractional_ids] both survive, though their Ids both truncate to 1. *)
Example duplicates_assessed_before_coercion :
  (λ d, label <$> rows d) <$> [spec_cleaning fractional_ids] = [[0; 1]]
  ∧ Qtrunc (6 # 5) = Qtrunc (17 # 10).
Proof. split; vm_compute; reflexivity. Qed.

(** C4, as stated, fails.  Cleaning [wine] gives [wine_cleaned]; running the
    cleaning sequence on [wine_cleaned] raises [KeyError] on Id, which the
    first run has dropped; and [wine_cleaned] still holds two rows that are
    exact duplicates (rows 1 and 2 differed only in their Id), so the
    duplicate drop alone changes it too. *)
Lemma cleaning_pipeline_not_idempotent :
  cleaning_pipeline wine = Ok wine_cleaned
  ∧ cleaning_pipeline wine_cleaned = Raise (KeyError "Id")
  ∧ cleaning_pipeline wine_cleaned ≠ Ok wine_cleaned
  ∧ label <$> rows (drop_duplicates wine_cleaned) = [0; 1]
  ∧ drop_duplicates wine_cleaned ≠ wine_cleaned.
Proof.
  assert (H2 : cleaning_pipeline wine_cleaned = Raise (KeyError "Id"))
    by (vm_compute; reflexivity).
  assert (H4 : label <$> rows (drop_duplicates wine_cleaned) = [0; 1])
    by (vm_compute; reflexivity).
  split; [vm_compute; reflexivity|]. split; [done|].
  split; [by rewrite H2|]. split; [done|].
  intros E. rewrite E in H4. vm_compute in H4. discriminate.
Qed.

(** C4, amended.  For every input table, the output of the cleaning pipeline
    has no missing value and no fixed acidity outside (0, 15): the
    missing-value drop and the acidity filter both return it unchanged.
    The whole sequence cannot be run on it again: its Id column is gone and
    the run raises [KeyError]. *)
Theorem cleaning_output_is_clean (df d : DataFrame) :
  cleaning_pipeline df = Ok d →
  dropna d = d
  ∧ (fa_lo ← getitem d "fixed acidity";
     fa_hi ← getitem d "fixed acidity";
     getitem_mask d (series_and (series_gt fa_lo 0) (series_lt fa_hi 15)))
    = Ok d
  ∧ cleaning_pipeline d = Raise (KeyError "Id").
Proof.
  intros (Hid & Hfa & ->)%cleaning_pipeline_Ok. split; [|split].
  - apply dropna_id, Forall_forall. intros r. apply spec_cleaning_complete.
  - apply acidity_filter_id.
    + rewrite spec_cleaning_columns. by apply list_elem_of_filter.
    + apply Forall_forall. intros r. apply spec_cleaning_acidity.
  - apply cleaning_pipeline_again.
Qed.

Lemma cleaning_output_is_clean_witness :
  cleaning_pipeline wine = Ok wine_cleaned
  ∧ dropna wine_cleaned = wine_cleaned
  ∧ (fa_lo ← getitem wine_cleaned "fixed acidity";
     fa_hi ← getitem wine_cleaned "fixed acidity";
     getitem_mask wine_cleaned
       (series_and (series_gt fa_lo 0) (series_lt fa_hi 15)))
    = Ok wine_cleaned
  ∧ cleaning_pipeline wine_cleaned = Raise (KeyError "Id").
Proof.
  assert (H : cleaning_pipeline wine = Ok wine_cleaned) by (vm_compute; reflexivity).
  split; [done|]. exact (cleaning_output_is_clean wine wine_cleaned H).
Defined.

(** C5.  For every input table and every row of the table the cleaning
    pipeline returns, the fixed acidity of the row is a number strictly
    greater than 0 and strictly less than 15. *)
Theorem cleaned_fixed_acidity_in_range (df d : DataFrame) (r : Row) :
  cleaning_pipeline df = Ok d →
  r ∈ rows d →
  ∃ q, cells r !! "fixed acidity" = Some q ∧ (0 < q)%Q ∧ (q < 15)%Q.
Proof.
  intros (_ & _ & ->)%cleaning_pipeline_Ok Hr%spec_cleaning_acidity.
  destruct (cells r !! "fixed acidity") as [q|]; [|done]. by exists q.
Qed.

Lemma cleaned_fixed_acidity_in_range_witness :
  (cleaning_pipeline wine = Ok wine_cleaned
   ∧ cleaned_row 1 (39 # 5) (49 # 5) 5 ∈ rows wine_cleaned)
  ∧ ∃ q, cells (cleaned_row 1 (39 # 5) (49 # 5) 5) !! "fixed acidity" = Some q
         ∧ (0 < q)%Q ∧ (q < 15)%Q.
Proof.
  assert (H : cleaning_pipeline wine = Ok wine_cleaned) by (vm_compute; reflexivity).
  assert (Hr : cleaned_row 1 (39 # 5) (49 # 5) 5 ∈ rows wine_cleaned)
    by (simpl; apply list_elem_of_further, list_elem_of_here).
  split; [done|].
  exact (cleaned_fixed_acidity_in_range wine wine_cleaned _ H Hr).
Defined.

(** C6.  For every input table, the table the cleaning pipeline returns has
    no Id column, and none of its rows has an Id field. *)
Theorem cleaned_has_no_Id (df d : DataFrame) :
  cleaning_pipeline df = Ok d →
  ("Id" ∉ columns d) ∧ (∀ r, r ∈ rows d → cells r !! "Id" = None).
Proof.
  intros (_ & _ & ->)%cleaning_pipeline_Ok. split.
  - apply spec_cleaning_no_Id_column.
  - intros r (r0 & -> & _)%spec_cleaning_row. apply lookup_delete_eq.
Qed.

Lemma cleaned_has_no_Id_witness :
  cleaning_pipeline wine = Ok wine_cleaned
  ∧ ("Id" ∉ columns wine_cleaned)
  ∧ (∀ r, r ∈ rows wine_cleaned → cells r !! "Id" = None).
Proof.
  assert (H : cleaning_pipeline wine = Ok wine_cleaned) by (vm_compute; reflexivity).
  split; [done|]. exact (cleaned_has_no_Id wine wine_cleaned H).
Defined.

(** C10.  The cleaning pipeline adds no row and alters no value of a
    retained column.  For every input table, the columns of the output are
    those of the input without Id; its rows are, in the same relative
    order, rows of the input without their Id field, so that every output
    row agrees with an input row on every column other than Id; and the
    first occurrence of a row is the one kept: a complete input row with an
    acidity in (0, 15) and no exact duplicate before it is in the output. *)
Theorem cleaning_retains_input_rows (df d : DataFrame) :
  cleaning_pipeline df = Ok d →
  columns d = filter (λ c, c ≠ "Id") (columns df)
  ∧ (∃ kept, kept `sublist_of` rows df ∧ rows d = without_id <$> kept)
  ∧ (∀ r', r' ∈ rows d →
       ∃ r, r ∈ rows df ∧ label r' = label r
            ∧ ∀ c, c ≠ "Id" → cells r' !! c = cells r !! c)
  ∧ (∀ l1 r l2,
       rows df = l1 ++ r :: l2 →
       no_missing_field (columns df) r →
       strictly_within 0 15 (cells r !! "fixed acidity") →
       (∀ x, x ∈ l1 → ¬ exact_duplicate (columns df) x r) →
       without_id r ∈ rows d).
Proof.
  intros (_ & _ & ->)%cleaning_pipeline_Ok.
  split; [apply spec_cleaning_columns|]. split; [|split].
  - exists (surviving_rows df).
    split; [apply surviving_rows_sublist | apply spec_cleaning_rows].
  - intros r' (r & -> & Hr)%spec_cleaning_row. exists r.
    apply surviving_rows_spec in Hr as (Hr & _ & _).
    split; [done|]. split; [done|]. intros c Hc. simpl.
    by rewrite lookup_delete_ne.
  - intros l1 r l2 Hrows Hc Hacid Hfirst. rewrite spec_cleaning_rows.
    apply list_elem_of_fmap_2.
    by eapply surviving_rows_first_occurrence.
Qed.

Lemma cleaning_retains_input_rows_witness :
  cleaning_pipeline wine = Ok wine_cleaned
  ∧ columns wine_cleaned = filter (λ c, c ≠ "Id") (columns wine)
  ∧ (∃ kept, kept `sublist_of` rows wine ∧ rows wine_cleaned = without_id <$> kept)
  ∧ (∀ r', r' ∈ rows wine_cleaned →
       ∃ r, r ∈ rows wine ∧ label r' = label r
            ∧ ∀ c, c ≠ "Id" → cells r' !! c = cells r !! c)
  ∧ (∀ l1 r l2,
       rows wine = l1 ++ r :: l2 →
       no_missing_field (columns wine) r →
       strictly_within 0 15 (cells r !! "fixed acidity") →
       (∀ x, x ∈ l1 → ¬ exact_duplicate (columns wine) x r) →
       without_id r ∈ rows wine_cleaned).
Proof.
  assert (H : cleaning_pipeline wine = Ok wine_cleaned) by (vm_compute; reflexivity).
  split; [done|]. exact (cleaning_retains_input_rows wine wine_cleaned H).
Defined.

(* ================================================================= *)
(** * The session cache *)

(** C3.  Once a cleaned table is stored in the session state, it stays
    there for the rest of the session: after any sequence of later runs of
    the script, whatever the filter bounds of each run, the session state
    still holds the same table, and the caching block returns that table,
    unchanged, for every filtered table it is given. *)
Theorem cleaned_dataset_cached_for_session {Figure Table : Type}
    (lib : @Library Figure Table) (df : DataFrame)
    (w : @World Figure Table) (df_cleaned : DataFrame) :
  session_state w !! "df_cleaned" = Some df_cleaned →
  ∀ (uis : list Interaction) (df_filtered : DataFrame),
    session_state (session lib df uis w) !! "df_cleaned" = Some df_cleaned
    ∧ cached_cleaning df_filtered (session lib df uis w)
      = (session lib df uis w, Ok df_cleaned).
Proof.
  intros Hw uis df_filtered.
  assert (H : session_state (session lib df uis w) !! "df_cleaned" = Some df_cleaned)
    by (by erewrite session_cached).
  split; [done|]. by apply cached_cleaning_hit.
Qed.

Lemma cleaned_dataset_cached_for_session_witness :
  session_state (rerun quiet_library wine fresh_session first_visit) !! "df_cleaned"
  = Some wine_cleaned
  ∧ ∀ (uis : list Interaction) (df_filtered : DataFrame),
      let w := rerun quiet_library wine fresh_session first_visit in
      session_state (session quiet_library wine uis w) !! "df_cleaned"
      = Some wine_cleaned
      ∧ cached_cleaning df_filtered (session quiet_library wine uis w)
        = (session quiet_library wine uis w, Ok wine_cleaned).
Proof.
  assert (H : session_state (rerun quiet_library wine fresh_session first_visit)
              !! "df_cleaned" = Some wine_cleaned) by (vm_compute; reflexivity).
  split; [done|].
  exact (cleaned_dataset_cached_for_session quiet_library wine _ wine_cleaned H).
Defined.

(** The stale cache at work: after the first visit, narrowing the quality
    slider to [6, 6] leaves a filtered table of one row, and the session
    still holds the three rows cleaned on the first visit. *)
Example stale_cache_after_narrowing :
  filter_layer wine (quality_filter narrowed) (alcohol_filter narrowed)
  = Ok (mkDataFrame wine_columns
          [wine_row 3 (Some (159 # 10)) (Some 10) (Some 6) (Some 3)]%Q)
  ∧ session_state
      (session quiet_library wine [first_visit; narrowed] fresh_session)
    !! "df_cleaned" = Some wine_cleaned.
Proof. split; vm_compute; reflexivity. Qed.

(* ================================================================= *)
(** * The chart tabs *)

(** C8.  Each chart tab that takes a column subset from the user, the box
    plot and the pair plot, draws its subheader and its multiselect and
    nothing else when the user has selected no column: no figure, no call
    into the plotting library, no error.  The multiselect itself is drawn
    only on a table that has the columns the tab offers by default, which
    is when the user can select at all. *)
Theorem empty_selection_renders_nothing {Figure Table : Type}
    (lib : @Library Figure Table) (df_cleaned : DataFrame)
    (w : @World Figure Table) :
  Forall (λ c, c ∈ columns df_cleaned)
    ["fixed acidity"; "volatile acidity"; "citric acid"; "alcohol"; "quality"] →
  boxplot_tab lib df_cleaned [] w
  = (mkWorld (session_state w)
       (page w ++
        [(Tab "Boxplot", subheader "Boxplot of Key Features");
         (Tab "Boxplot",
          multiselect "Select features to display boxplots:" (columns df_cleaned)
            ["fixed acidity"; "volatile acidity"; "quality"])]),
     Ok ())
  ∧ pairplot_tab lib df_cleaned [] w
    = (mkWorld (session_state w)
         (page w ++
          [(Tab "Pairplot", subheader "Pairplot of Key Features");
           (Tab "Pairplot",
            multiselect "Select features for pairplot:" (columns df_cleaned)
              ["fixed acidity"; "volatile acidity"; "citric acid"; "alcohol";
               "quality"])]),
       Ok ()).
Proof.
  intros Hd. split; [apply boxplot_tab_nil | by apply pairplot_tab_nil].
  rewrite !Forall_cons in Hd. rewrite !Forall_cons. tauto.
Qed.

Lemma empty_selection_renders_nothing_witness :
  Forall (λ c, c ∈ columns chart_table)
    ["fixed acidity"; "volatile acidity"; "citric acid"; "alcohol"; "quality"]
  ∧ boxplot_tab quiet_library chart_table [] fresh_session
    = (mkWorld ∅
         [(Tab "Boxplot", subheader "Boxplot of Key Features");
          (Tab "Boxplot",
           multiselect "Select features to display boxplots:" chart_columns
             ["fixed acidity"; "volatile acidity"; "quality"])],
       Ok ())
  ∧ pairplot_tab quiet_library chart_table [] fresh_session
    = (mkWorld ∅
         [(Tab "Pairplot", subheader "Pairplot of Key Features");
          (Tab "Pairplot",
           multiselect "Select features for pairplot:" chart_columns
             ["fixed acidity"; "volatile acidity"; "citric acid"; "alcohol";
              "quality"])],
       Ok ()).
Proof.
  assert (H : Forall (λ c, c ∈ columns chart_table)
                ["fixed acidity"; "volatile acidity"; "citric acid"; "alcohol";
                 "quality"]) by compute_done.
  split; [done|].
  exact (empty_selection_renders_nothing quiet_library chart_table fresh_session H).
Defined.

(* ================================================================= *)
(** * An empty filter result *)

(** C9, as stated, fails.  With bounds that exclude every row of [wine] the
    filtered table is empty and the run does not raise, but the statistics
    page is not a no-data state: it draws the statistics table computed
    over the empty cleaned table. *)
Lemma empty_filter_result_no_explicit_state :
  filter_layer wine (quality_filter excluding_all) (alcohol_filter excluding_all)
  = Ok (mkDataFrame wine_columns [])
  ∧ (main quiet_library wine excluding_all fresh_session).2 = Ok ()
  ∧ ¬ no_data_state (page (main quiet_library wine excluding_all fresh_session).1).
Proof.
  split; [vm_compute; reflexivity|]. split; [vm_compute; reflexivity|].
  intros H. apply (H ()).
  match goal with
  | |- _ ∈ ?l => let l' := eval vm_compute in l in change l with l'
  end.
  repeat first [apply list_elem_of_here | apply list_elem_of_further].
Qed.

(** C9, amended.  When the filter bounds exclude every row, the filter layer
    returns the empty table, which is not an error, and the cleaning
    pipeline turns it into an empty cleaned table without raising.  The
    statistics page has no state of its own for it: it runs the same
    statistics calls on the empty table, draws their table when they
    succeed, and raises when one of them raises. *)
Theorem empty_filter_result_is_valid {Figure Table : Type}
    (lib : @Library Figure Table) (df : DataFrame)
    (quality_filter : Z * Z) (alcohol_filter : Q * Q) :
  "quality" ∈ columns df →
  "alcohol" ∈ columns df →
  "Id" ∈ columns df →
  "fixed acidity" ∈ columns df →
  Forall (λ r, ¬ in_filter_ranges quality_filter alcohol_filter r) (rows df) →
  ∃ df_cleaned,
    filter_layer df quality_filter alcohol_filter = Ok (mkDataFrame (columns df) [])
    ∧ cleaning_pipeline (mkDataFrame (columns df) []) = Ok df_cleaned
    ∧ rows df_cleaned = []
    ∧ ∀ w : @World Figure Table,
        match (t ← desc_stats lib df_cleaned; highlight_max lib t) with
        | Ok styled =>
            ∃ p, data_cleaning_and_describing lib df df_cleaned w
                 = (mkWorld (session_state w) (page w ++ p), Ok ())
               ∧ (Tab "Descriptive Statistics", dataframe_styled styled) ∈ p
        | Raise e =>
            (data_cleaning_and_describing lib df df_cleaned w).2 = Raise e
        end.
Proof.
  intros Hq Ha Hid Hfa Hnone.
  exists (mkDataFrame (filter (λ c, c ≠ "Id") (columns df)) []).
  split; [|split; [|split; [done|]]].
  - rewrite filter_layer_eq, !bool_decide_eq_true_2 by done.
    by rewrite filter_Forall_nil.
  - rewrite cleaning_pipeline_eq. simpl. by rewrite !bool_decide_eq_true_2.
  - intros w.
    destruct (t ← desc_stats lib _; highlight_max lib t) as [styled|e] eqn:E.
    + by apply data_cleaning_and_describing_Ok.
    + by apply data_cleaning_and_describing_Raise.
Qed.

Lemma empty_filter_result_is_valid_witness :
  ("quality" ∈ columns wine ∧ "alcohol" ∈ columns wine
   ∧ "Id" ∈ columns wine ∧ "fixed acidity" ∈ columns wine
   ∧ Forall (λ r, ¬ in_filter_ranges (7, 7)%Z (47 # 5, 10)%Q r) (rows wine))
  ∧ ∃ df_cleaned,
      filter_layer wine (7, 7)%Z (47 # 5, 10)%Q = Ok (mkDataFrame (columns wine) [])
      ∧ cleaning_pipeline (mkDataFrame (columns wine) []) = Ok df_cleaned
      ∧ rows df_cleaned = []
      ∧ ∀ w : @World unit unit,
          match (t ← desc_stats quiet_library df_cleaned;
                 highlight_max quiet_library t) with
          | Ok styled =>
              ∃ p, data_cleaning_and_describing quiet_library wine df_cleaned w
                   = (mkWorld (session_state w) (page w ++ p), Ok ())
                 ∧ (Tab "Descriptive Statistics", dataframe_styled styled) ∈ p
          | Raise e =>
              (data_cleaning_and_describing quiet_library wine df_cleaned w).2
              = Raise e
          end.
Proof.
  assert (Hq : "quality" ∈ columns wine) by compute_done.
  assert (Ha : "alcohol" ∈ columns wine) by compute_done.
  assert (Hid : "Id" ∈ columns wine) by compute_done.
  assert (Hfa : "fixed acidity" ∈ columns wine) by compute_done.
  assert (Hnone : Forall (λ r, ¬ in_filter_ranges (7, 7)%Z (47 # 5, 10)%Q r)
                         (rows wine)) by compute_done.
  split; [done|].
  exact (empty_filter_result_is_valid quiet_library wine _ _ Hq Ha Hid Hfa Hnone).
Defined.

(* ================================================================= *)
(** * Further properties of the filter layer and the cleaning pipeline *)

(** X1.  The filter layer fails exactly on a table without one of its two
    columns: without a quality column it raises [KeyError] on quality; with
    a quality column and no alcohol column, on alcohol.  It raises nothing
    else. *)
Theorem filter_layer_raises (df : DataFrame) (quality_filter : Z * Z)
    (alcohol_filter : Q * Q) (e : exn) :
  filter_layer df quality_filter alcohol_filter = Raise e ↔
  (("quality" ∉ columns df) ∧ e = KeyError "quality")
  ∨ ("quality" ∈ columns df ∧ ("alcohol" ∉ columns df) ∧ e = KeyError "alcohol").
Proof.
  rewrite filter_layer_eq. repeat case_bool_decide;
    (split; intros Hr;
     [ try discriminate Hr; injection Hr as <-; first [by left | by right]
     | by destruct Hr as [[? ->]|(? & ? & ->)] ]).
Qed.

(** X2.  The cleaning pipeline needs its two columns: it returns only on a
    table that has both an Id and a fixed-acidity column, and on a table
    without an Id column it raises [KeyError] on Id. *)
Theorem cleaning_pipeline_needs_columns (df_filtered : DataFrame) :
  match cleaning_pipeline df_filtered with
  | Ok _ => "Id" ∈ columns df_filtered ∧ "fixed acidity" ∈ columns df_filtered
  | Raise e => ("Id" ∉ columns df_filtered) → e = KeyError "Id"
  end.
Proof.
  rewrite cleaning_pipeline_eq. repeat case_bool_decide; done.
Qed.

(** X3.  The column minimum and maximum that give the sliders their bounds
    skip the missing values: on a column with at least one value they are
    values of the column, and every value of the column lies between
    them. *)
Theorem series_min_max_bound (s : Series) (q : Q) :
  Some q ∈ s →
  ∃ lo hi,
    series_min s = Some lo ∧ series_max s = Some hi
    ∧ Some lo ∈ s ∧ Some hi ∈ s
    ∧ (lo <= q)%Q ∧ (q <= hi)%Q.
Proof.
  intros Hq.
  destruct (series_min s) as [lo|] eqn:Elo;
    [|by apply (series_min_None s Elo) in Hq].
  destruct (series_max s) as [hi|] eqn:Ehi;
    [|by apply (series_max_None s Ehi) in Hq].
  exists lo, hi. split; [done|]. split; [done|].
  split; [by apply series_min_elem|]. split; [by apply series_max_elem|].
  split; [by eapply series_min_le | by eapply series_max_ge].
Qed.

Lemma series_min_max_bound_witness :
  Some (49 # 5)%Q ∈ [Some (47 # 5); None; Some (49 # 5); Some 11]%Q
  ∧ ∃ lo hi,
      series_min [Some (47 # 5); None; Some (49 # 5); Some 11]%Q = Some lo
      ∧ series_max [Some (47 # 5); None; Some (49 # 5); Some 11]%Q = Some hi
      ∧ Some lo ∈ [Some (47 # 5); None; Some (49 # 5); Some 11]%Q
      ∧ Some hi ∈ [Some (47 # 5); None; Some (49 # 5); Some 11]%Q
      ∧ (lo <= 49 # 5)%Q ∧ (49 # 5 <= hi)%Q.
Proof.
  assert (H : Some (49 # 5)%Q ∈ [Some (47 # 5); None; Some (49 # 5); Some 11]%Q)
    by (do 2 apply list_elem_of_further; apply list_elem_of_here).
  split; [done|]. exact (series_min_max_bound _ _ H).
Defined.

(** X4.  With both sliders at the full range the script computes from the
    table (lines 215 and 224), and a quality column of integers, the filter
    layer keeps exactly the rows that have a quality and an alcohol value:
    no such row is excluded, and a row with either value missing is dropped
    whatever the bounds. *)
Theorem full_range_keeps_rows_with_values (df : DataFrame)
    (quality alcohol : Series) (quality_min quality_max : Z)
    (alcohol_min alcohol_max : Q) :
  getitem df "quality" = Ok quality →
  to_int (series_min quality) = Ok quality_min →
  to_int (series_max quality) = Ok quality_max →
  getitem df "alcohol" = Ok alcohol →
  series_min alcohol = Some alcohol_min →
  series_max alcohol = Some alcohol_max →
  (∀ q, Some q ∈ quality → integral q) →
  filter_layer df (quality_min, quality_max) (alcohol_min, alcohol_max)
  = Ok (mkDataFrame (columns df)
          (filter (λ r, is_Some (cells r !! "quality")
                        ∧ is_Some (cells r !! "alcohol"))
                  (rows df))).
Proof.
  intros [Hqc ->]%getitem_Ok Hlo Hhi [Hac ->]%getitem_Ok Halo Hahi Hint.
  rewrite filter_layer_eq, !bool_decide_eq_true_2 by done. do 2 f_equal.
  apply filter_ext_in. intros r Hr. unfold in_filter_ranges. simpl.
  destruct (cells r !! "quality") as [q|] eqn:Eq;
    [|split; [by intros [[] _] | by intros [[? ?] _]]].
  destruct (cells r !! "alcohol") as [a|] eqn:Ea;
    [|split; [by intros [_ []] | by intros [_ [? ?]]]].
  assert (Hq : Some q ∈ (λ r, cells r !! "quality") <$> rows df).
  { apply list_elem_of_fmap. exists r. by rewrite Eq. }
  assert (Ha : Some a ∈ (λ r, cells r !! "alcohol") <$> rows df).
  { apply list_elem_of_fmap. exists r. by rewrite Ea. }
  split; [by intros _; split; eexists|]. intros _. simpl.
  apply to_int_Ok in Hlo as (lo & Elo & Hlo), Hhi as (hi & Ehi & Hhi).
  destruct (to_int_integral lo) as (zlo & Hzlo & Hlo').
  { apply Hint. by apply series_min_elem. }
  destruct (to_int_integral hi) as (zhi & Hzhi & Hhi').
  { apply Hint. by apply series_max_elem. }
  assert (zlo = quality_min) as -> by congruence.
  assert (zhi = quality_max) as -> by congruence.
  repeat split.
  - rewrite <- Hlo'. by eapply series_min_le.
  - rewrite <- Hhi'. by eapply series_max_ge.
  - by eapply series_min_le.
  - by eapply series_max_ge.
Qed.

Lemma full_range_keeps_rows_with_values_witness :
  filter_layer wine (5, 7)%Z (47 # 5, 11)%Q
  = Ok (mkDataFrame (columns wine)
          (filter (λ r, is_Some (cells r !! "quality")
                        ∧ is_Some (cells r !! "alcohol"))
                  (rows wine))).
Proof.
  apply (full_range_keeps_rows_with_values wine
           [Some 5; Some 5; Some 5; Some 6; Some 7; Some 5]%Q
           [Some (47 # 5); Some (49 # 5); Some (49 # 5); Some 10; Some 11;
            Some (47 # 5)]%Q);
    try (vm_compute; reflexivity).
  intros q Hq.
  repeat (apply elem_of_cons in Hq as [Hq|Hq];
          [injection Hq as ->; eexists; reflexivity|]).
  by apply elem_of_nil in Hq.
Defined.

(** X5.  The missing-value counts shown on the cleaning tab are all zero
    exactly when the missing-value drop leaves the table unchanged. *)
Theorem isnull_sum_zero_iff_dropna_noop (df : DataFrame) :
  (∀ c n, (c, n) ∈ isnull_sum df → n = 0) ↔ dropna df = df.
Proof.
  split.
  - intros H. apply dropna_id, Forall_forall. intros r Hr.
    apply no_missing_field_lookup. intros c Hc Hnone.
    assert (Hz : length (filter (λ r, cells r !! c = None) (rows df)) = 0).
    { apply (H c). unfold isnull_sum. apply list_elem_of_fmap. by exists c. }
    apply length_filter_zero in Hz. rewrite Forall_forall in Hz. by apply (Hz r).
  - intros Hd c n (c' & [= -> ->] & Hc)%list_elem_of_fmap.
    apply length_filter_zero, Forall_forall. intros r Hr.
    rewrite dropna_eq in Hd. unfold spec_drop_missing in Hd.
    assert (Hrows : filter (no_missing_field (columns df)) (rows df) = rows df)
      by (by destruct df; injection Hd).
    apply filter_eq_Forall in Hrows. rewrite Forall_forall in Hrows.
    intros Hnone. pose proof (Hrows r Hr) as Hcomp.
    rewrite no_missing_field_lookup in Hcomp. by apply (Hcomp c').
Qed.

(** X6.  On a table whose rows all carry different Ids, the duplicate drop
    removes nothing: the Id column takes part in the comparison, so rows
    that agree on every other column are kept side by side. *)
Theorem drop_duplicates_noop_on_unique_ids (df : DataFrame) :
  "Id" ∈ columns df →
  pairwise (λ r x, ¬ same_value (cells r !! "Id") (cells x !! "Id")) (rows df) →
  drop_duplicates df = df.
Proof.
  intros Hid Hu. rewrite drop_duplicates_eq. unfold spec_drop_duplicates.
  rewrite first_occurrences_id; [by destruct df|].
  eapply pairwise_impl; [|exact Hu]. intros r x Hne Hdup. apply Hne.
  by eapply exact_duplicate_column.
Qed.

Lemma drop_duplicates_noop_on_unique_ids_witness :
  drop_duplicates (head wine) = head wine.
Proof.
  apply drop_duplicates_noop_on_unique_ids; [compute_done|].
  simpl. repeat split; repeat constructor; by vm_compute.
Defined.

(** X7.  The duplicate drop leaves no two rows that agree on every column,
    and a second duplicate drop or a second missing-value drop changes
    nothing. *)
Theorem drop_duplicates_dropna_idempotent (df : DataFrame) :
  pairwise (λ r x, ¬ exact_duplicate (columns df) r x) (rows (drop_duplicates df))
  ∧ drop_duplicates (drop_duplicates df) = drop_duplicates df
  ∧ dropna (dropna df) = dropna df.
Proof.
  split; [|split].
  - rewrite drop_duplicates_eq. apply first_occurrences_pairwise.
  - rewrite !drop_duplicates_eq. unfold spec_drop_duplicates. simpl. f_equal.
    apply first_occurrences_id, first_occurrences_pairwise.
  - apply dropna_id. rewrite dropna_eq. apply Forall_filter_id.
Qed.

(** X8.  Filtering and then cleaning compose: the cleaned table has the
    columns of the raw table without Id, among them quality, alcohol and
    fixed acidity, and each of its rows is a row of the raw table without
    its Id that satisfies both filter ranges and the acidity bound. *)
Theorem filter_then_clean (df df_filtered df_cleaned : DataFrame)
    (quality_filter : Z * Z) (alcohol_filter : Q * Q) :
  filter_layer df quality_filter alcohol_filter = Ok df_filtered →
  cleaning_pipeline df_filtered = Ok df_cleaned →
  columns df_cleaned = filter (λ c, c ≠ "Id") (columns df)
  ∧ "quality" ∈ columns df_cleaned
  ∧ "alcohol" ∈ columns df_cleaned
  ∧ "fixed acidity" ∈ columns df_cleaned
  ∧ ∀ r, r ∈ rows df_cleaned →
      in_filter_ranges quality_filter alcohol_filter r
      ∧ strictly_within 0 15 (cells r !! "fixed acidity")
      ∧ ∃ r0, r0 ∈ rows df ∧ r = without_id r0.
Proof.
  intros (Hq & Ha & ->)%filter_layer_Ok (Hid & Hfa & ->)%cleaning_pipeline_Ok.
  set (f := mkDataFrame (columns df) _) in *.
  change (columns f) with (columns df) in Hid, Hfa.
  rewrite spec_cleaning_columns. change (columns f) with (columns df).
  split; [done|]. do 3 (split; [by apply list_elem_of_filter|]).
  intros r Hr. pose proof (spec_cleaning_acidity _ _ Hr) as Hacid.
  apply spec_cleaning_row in Hr as (r0 & -> & Hr0).
  apply surviving_rows_spec in Hr0 as (Hr0 & _ & _).
  apply list_elem_of_filter in Hr0 as [[Hqr Har] Hr0].
  split; [|split; [done|by exists r0]].
  unfold in_filter_ranges. simpl. by rewrite !lookup_delete_ne.
Qed.

Lemma filter_then_clean_witness :
  (filter_layer wine (5, 7)%Z (47 # 5, 11)%Q = Ok wine
   ∧ cleaning_pipeline wine = Ok wine_cleaned)
  ∧ columns wine_cleaned = filter (λ c, c ≠ "Id") (columns wine)
  ∧ "quality" ∈ columns wine_cleaned
  ∧ "alcohol" ∈ columns wine_cleaned
  ∧ "fixed acidity" ∈ columns wine_cleaned
  ∧ ∀ r, r ∈ rows wine_cleaned →
      in_filter_ranges (5, 7)%Z (47 # 5, 11)%Q r
      ∧ strictly_within 0 15 (cells r !! "fixed acidity")
      ∧ ∃ r0, r0 ∈ rows wine ∧ r = without_id r0.
Proof.
  assert (Hf : filter_layer wine (5, 7)%Z (47 # 5, 11)%Q = Ok wine)
    by (vm_compute; reflexivity).
  assert (Hc : cleaning_pipeline wine = Ok wine_cleaned) by (vm_compute; reflexivity).
  split; [done|]. exact (filter_then_clean wine wine wine_cleaned _ _ Hf Hc).
Defined.

(** X9.  Assigning a column and reading it back: [df[c] = s], for a column
    [s] with one value per row as on line 253, does not raise; after it
    [df[c]] is [s], every other column reads as before, and the rows keep
    their index labels. *)
Theorem setitem_getitem (df : DataFrame) (c : string) (s : Series) :
  length s = length (rows df) →
  ∃ df',
    setitem df c s = Ok df'
    ∧ getitem df' c = Ok s
    ∧ (∀ c', c' ≠ c → getitem df' c' = getitem df c')
    ∧ label <$> rows df' = label <$> rows df.
Proof.
  intros Hlen. unfold setitem. eexists. split; [reflexivity|].
  split; [|split].
  - unfold getitem. simpl. rewrite bool_decide_eq_true_2.
    + by rewrite assign_rows_lookup.
    + case_bool_decide; [done|]. apply elem_of_app. right. left.
  - intros c' Hne. unfold getitem. simpl.
    rewrite assign_rows_lookup_ne by done.
    assert (Hiff : c' ∈ (if bool_decide (c ∈ columns df) then columns df
                         else columns df ++ [c]) ↔ c' ∈ columns df).
    { case_bool_decide; [done|]. rewrite elem_of_app, list_elem_of_singleton.
      tauto. }
    by rewrite (bool_decide_ext _ _ Hiff).
  - simpl. apply assign_rows_label.
Qed.

Lemma setitem_getitem_witness :
  ∃ df',
    setitem wine_cleaned "quality" [Some 6; Some 6; Some 7]%Q = Ok df'
    ∧ getitem df' "quality" = Ok [Some 6; Some 6; Some 7]%Q
    ∧ (∀ c', c' ≠ "quality" → getitem df' c' = getitem wine_cleaned c')
    ∧ label <$> rows df' = label <$> rows wine_cleaned.
Proof.
  apply (setitem_getitem wine_cleaned "quality" [Some 6; Some 6; Some 7]%Q).
  reflexivity.
Defined.

(* ================================================================= *)
(** * Further properties of a run of the script *)

(** X10.  On a table without a quality column every run raises [KeyError]
    on quality, whichever page is selected: the run stops after the two
    sidebar headers and the navigation radio, before any page is drawn, and
    the session state is untouched. *)
Theorem main_raises_without_quality_column {Figure Table : Type}
    (lib : @Library Figure Table) (df : DataFrame) (ui : Interaction)
    (w : @World Figure Table) :
  "quality" ∉ columns df →
  main lib df ui w
  = (mkWorld (session_state w)
       (page w ++
        [(Sidebar, header "Navigation");
         (Sidebar, radio "Go to"
            ["Introduction"; "Data Cleaning & Describing";
             "Data Visualization"; "Conclusion"]);
         (Sidebar, header "Filters")]),
     Raise (KeyError "quality")).
Proof.
  intros Hq. pose proof (getitem_None df "quality" Hq) as Hg.
  unfold main. do 3 run_step.
  erewrite bind_Raise by (unfold lift; apply f_equal2; [reflexivity|exact Hg]).
  simpl. by rewrite <- !app_assoc.
Qed.

Lemma main_raises_without_quality_column_witness :
  main quiet_library (mkDataFrame ["alcohol"; "Id"] []) first_visit fresh_session
  = (mkWorld ∅
       [(Sidebar, header "Navigation");
        (Sidebar, radio "Go to"
           ["Introduction"; "Data Cleaning & Describing";
            "Data Visualization"; "Conclusion"]);
        (Sidebar, header "Filters")],
     Raise (KeyError "quality")).
Proof.
  apply (main_raises_without_quality_column quiet_library
           (mkDataFrame ["alcohol"; "Id"] []) first_visit fresh_session).
  compute_done.
Defined.

(** X11.  On a table with a quality column and no quality value, the empty
    table among them, every run raises [ValueError]: the minimum of the
    column is NaN and [int] refuses it.  The run stops before the sliders
    are drawn and the session state is untouched. *)
Theorem main_raises_without_quality_value {Figure Table : Type}
    (lib : @Library Figure Table) (df : DataFrame) (ui : Interaction)
    (w : @World Figure Table) :
  "quality" ∈ columns df →
  Forall (λ r, cells r !! "quality" = None) (rows df) →
  main lib df ui w
  = (mkWorld (session_state w)
       (page w ++
        [(Sidebar, header "Navigation");
         (Sidebar, radio "Go to"
            ["Introduction"; "Data Cleaning & Describing";
             "Data Visualization"; "Conclusion"]);
         (Sidebar, header "Filters")]),
     Raise (ValueError "cannot convert float NaN to integer")).
Proof.
  intros Hq Hnone. pose proof (getitem_Some df "quality" Hq) as Hg.
  assert (Hmin : to_int (series_min ((λ r, cells r !! "quality") <$> rows df))
                 = Raise (ValueError "cannot convert float NaN to integer")).
  { rewrite series_min_all_None; [done|]. by apply Forall_fmap. }
  unfold main. do 4 run_step.
  erewrite bind_Raise by (unfold lift; apply f_equal2; [reflexivity|exact Hmin]).
  simpl. by rewrite <- !app_assoc.
Qed.

Lemma main_raises_without_quality_value_witness :
  main quiet_library (mkDataFrame wine_columns []) first_visit fresh_session
  = (mkWorld ∅
       [(Sidebar, header "Navigation");
        (Sidebar, radio "Go to"
           ["Introduction"; "Data Cleaning & Describing";
            "Data Visualization"; "Conclusion"]);
        (Sidebar, header "Filters")],
     Raise (ValueError "cannot convert float NaN to integer")).
Proof.
  apply (main_raises_without_quality_value quiet_library
           (mkDataFrame wine_columns []) first_visit fresh_session).
  - compute_done.
  - constructor.
Defined.

(** X12.  With no cleaned table in the session state, the caching block
    cleans the filtered table it is given: when the cleaning succeeds it
    stores the result under [df_cleaned] and returns it, and when the
    cleaning raises it stores nothing, so that the next run cleans
    again. *)
Theorem cached_cleaning_first_time {Figure Table : Type}
    (df_filtered : DataFrame) (w : @World Figure Table) :
  session_state w !! "df_cleaned" = None →
  cached_cleaning df_filtered w
  = match cleaning_pipeline df_filtered with
    | Ok df_cleaned =>
        (mkWorld (<["df_cleaned" := df_cleaned]> (session_state w)) (page w),
         Ok df_cleaned)
    | Raise e => (w, Raise e)
    end.
Proof.
  intros Hw. destruct (cleaning_pipeline df_filtered) as [d|e] eqn:E.
  - by apply cached_cleaning_miss.
  - by apply cached_cleaning_fail.
Qed.

Lemma cached_cleaning_first_time_witness :
  cached_cleaning wine fresh_session
  = match cleaning_pipeline wine with
    | Ok df_cleaned =>
        (mkWorld (<["df_cleaned" := df_cleaned]> (session_state fresh_session))
           (page fresh_session),
         Ok df_cleaned)
    | Raise e => (fresh_session, Raise e)
    end.
Proof. apply (cached_cleaning_first_time wine fresh_session). reflexivity. Defined.

(** X13.  A run of the script writes no session key other than
    [df_cleaned], and only adds to the page, whether it returns or
    raises. *)
Theorem main_writes_only_df_cleaned {Figure Table : Type}
    (lib : @Library Figure Table) (df : DataFrame) (ui : Interaction)
    (w : @World Figure Table) (k : string) :
  k ≠ "df_cleaned" →
  session_state (main lib df ui w).1 !! k = session_state w !! k
  ∧ page w `prefix_of` page (main lib df ui w).1.
Proof.
  intros Hk. split.
  - by apply same_other_keys_main.
  - apply page_extended_main.
Qed.

Lemma main_writes_only_df_cleaned_witness :
  session_state (main quiet_library wine first_visit fresh_session).1 !! "theme"
  = session_state fresh_session !! "theme"
  ∧ page fresh_session
    `prefix_of` page (main quiet_library wine first_visit fresh_session).1.
Proof.
  apply (main_writes_only_df_cleaned quiet_library wine first_visit fresh_session).
  discriminate.
Defined.

(** X14.  The four pages only draw: none of them changes the session
    state, whether it returns or raises. *)
Theorem pages_leave_session_state {Figure Table : Type}
    (lib : @Library Figure Table) (df df_cleaned : DataFrame) (ui : Interaction)
    (w : @World Figure Table) :
  session_state (introduction w).1 = session_state w
  ∧ session_state (data_cleaning_and_describing lib df df_cleaned w).1
    = session_state w
  ∧ session_state (data_visualization lib df_cleaned ui w).1 = session_state w
  ∧ session_state (conclusion w).1 = session_state w.
Proof.
  split; [apply same_session_introduction|].
  split; [apply same_session_data_cleaning_and_describing|].
  split; [apply same_session_data_visualization|apply same_session_conclusion].
Qed.

(** X15.  The first run that gets through the sliders, the filter and the
    cleaning decides the cleaned table of the whole session.  Started
    without a cached table, on a raw table whose quality and alcohol columns
    each span a range (minimum below maximum, so that both sliders are
    drawn), a run whose filtered table cleans to [df_cleaned] stores
    [df_cleaned], even if the page it then draws raises; and after any later
    runs, whatever their filter bounds, the session still holds
    [df_cleaned]. *)
Theorem first_run_fixes_cleaned_dataset {Figure Table : Type}
    (lib : @Library Figure Table) (df df_filtered df_cleaned : DataFrame)
    (quality alcohol : Series) (quality_min quality_max : Z)
    (alcohol_min alcohol_max : Q)
    (ui : Interaction) (uis : list Interaction) (w : @World Figure Table) :
  session_state w !! "df_cleaned" = None →
  getitem df "quality" = Ok quality →
  to_int (series_min quality) = Ok quality_min →
  to_int (series_max quality) = Ok quality_max →
  (quality_min < quality_max)%Z →
  getitem df "alcohol" = Ok alcohol →
  series_min alcohol = Some alcohol_min →
  series_max alcohol = Some alcohol_max →
  (alcohol_min < alcohol_max)%Q →
  filter_layer df (quality_filter ui) (alcohol_filter ui) = Ok df_filtered →
  cleaning_pipeline df_filtered = Ok df_cleaned →
  session_state (main lib df ui w).1
  = <["df_cleaned" := df_cleaned]> (session_state w)
  ∧ session_state (session lib df (ui :: uis) w) !! "df_cleaned"
    = Some df_cleaned.
Proof.
  intros Hw Hgq Hmin Hmax Hq Hga Halo Hahi Ha Hf Hc.
  assert (Hmain : ∀ w0 : @World Figure Table,
            session_state w0 !! "df_cleaned" = None →
            session_state (main lib df ui w0).1
            = <["df_cleaned" := df_cleaned]> (session_state w0)).
  { intros w0 Hw0.
    destruct (main_reaches_cache lib df df_filtered ui w0 _ _ _ _ _ _
                Hgq Hmin Hmax Hq Hga Halo Hahi Ha Hf)
      as (p & rest & -> & _ & Hrest & _).
    erewrite bind_Ok by (by apply cached_cleaning_miss).
    by rewrite (Hrest df_cleaned _). }
  split; [by apply Hmain|].
  unfold session. simpl. fold (session lib df uis (rerun lib df w ui)).
  assert (Hrun : session_state (rerun lib df w ui) !! "df_cleaned" = Some df_cleaned).
  { unfold rerun. rewrite Hmain by done. apply lookup_insert_eq. }
  by erewrite session_cached.
Qed.

Lemma first_run_fixes_cleaned_dataset_witness :
  session_state (main quiet_library wine first_visit fresh_session).1
  = <["df_cleaned" := wine_cleaned]> (session_state fresh_session)
  ∧ session_state
      (session quiet_library wine [first_visit; narrowed; excluding_all]
         fresh_session) !! "df_cleaned"
    = Some wine_cleaned.
Proof.
  apply (first_run_fixes_cleaned_dataset quiet_library wine wine wine_cleaned
           [Some 5; Some 5; Some 5; Some 6; Some 7; Some 5]%Q
           [Some (47 # 5); Some (49 # 5); Some (49 # 5); Some 10; Some 11;
            Some (47 # 5)]%Q
           5 7 (47 # 5) 11
           first_visit [narrowed; excluding_all] fresh_session);
    vm_compute; reflexivity.
Defined.

(** X16.  The download always carries the table filtered in the current
    run.  On a raw table whose quality and alcohol columns each span a
    range, so that both sliders are drawn, whenever the filter layer returns
    [df_filtered] the page of the run holds a download button whose data is
    the CSV text of [df_filtered], whatever the session has cached and
    whether or not the cleaning or the page drawn afterwards raises. *)
Theorem download_is_current_filtered {Figure Table : Type}
    (lib : @Library Figure Table) (df df_filtered : DataFrame)
    (quality alcohol : Series) (quality_min quality_max : Z)
    (alcohol_min alcohol_max : Q)
    (ui : Interaction) (w : @World Figure Table) :
  getitem df "quality" = Ok quality →
  to_int (series_min quality) = Ok quality_min →
  to_int (series_max quality) = Ok quality_max →
  (quality_min < quality_max)%Z →
  getitem df "alcohol" = Ok alcohol →
  series_min alcohol = Some alcohol_min →
  series_max alcohol = Some alcohol_max →
  (alcohol_min < alcohol_max)%Q →
  filter_layer df (quality_filter ui) (alcohol_filter ui) = Ok df_filtered →
  (Sidebar, download_button "Download Filtered Data as CSV"
              (to_csv lib df_filtered) "filtered_wine_quality.csv" "text/csv")
  ∈ page (main lib df ui w).1.
Proof.
  intros Hgq Hmin Hmax Hq Hga Halo Hahi Ha Hf.
  destruct (main_reaches_cache lib df df_filtered ui w _ _ _ _ _ _
              Hgq Hmin Hmax Hq Hga Halo Hahi Ha Hf)
    as (p & rest & -> & Hp & _ & Hrest).
  eapply prefix_elem_of.
  - apply (always_bind page_extended _ _
             (page_extended_cached_cleaning df_filtered) Hrest).
  - simpl. apply elem_of_app. by right.
Qed.

Lemma download_is_current_filtered_witness :
  (Sidebar, download_button "Download Filtered Data as CSV"
              (to_csv quiet_library
                 (mkDataFrame wine_columns
                    [wine_row 3 (Some (159 # 10)) (Some 10) (Some 6) (Some 3)]%Q))
              "filtered_wine_quality.csv" "text/csv")
  ∈ page (main quiet_library wine narrowed
            (rerun quiet_library wine fresh_session first_visit)).1.
Proof.
  apply (download_is_current_filtered quiet_library wine _
           [Some 5; Some 5; Some 5; Some 6; Some 7; Some 5]%Q
           [Some (47 # 5); Some (49 # 5); Some (49 # 5); Some 10; Some 11;
            Some (47 # 5)]%Q
           5 7 (47 # 5) 11 narrowed);
    vm_compute; reflexivity.
Defined.

(** X17.  Selecting columns by a list of labels: [df[cs]] succeeds exactly
    when every label is a column; the result has the columns [cs] in the
    order given, one row per row of [df] with the same index label, and
    each row reads as before on the selected columns and has no other
    field.  Otherwise it raises a [KeyError] that names the labels of [cs]
    that are not columns, all of them. *)
Theorem getitem_columns_spec (df : DataFrame) (cs : list string) :
  match getitem_columns df cs with
  | Ok sub =>
      Forall (λ c, c ∈ columns df) cs
      ∧ columns sub = cs
      ∧ label <$> rows sub = label <$> rows df
      ∧ Forall2 (λ r' r, ∀ c, cells r' !! c
                              = if decide (c ∈ cs) then cells r !! c else None)
                (rows sub) (rows df)
  | Raise e =>
      ∃ missing,
        e = KeyErrorNotInIndex missing
        ∧ missing ≠ []
        ∧ ∀ c, c ∈ missing ↔ c ∈ cs ∧ c ∉ columns df
  end.
Proof.
  unfold getitem_columns.
  destruct (filter (λ c, c ∉ columns df) cs) as [|m missing] eqn:E.
  - split; [|split; [done|split]].
    + apply Forall_forall. intros c Hc.
      destruct (decide (c ∈ columns df)) as [|Hn]; [done|].
      assert (Hin : c ∈ filter (λ c, c ∉ columns df) cs)
        by (by apply list_elem_of_filter).
      rewrite E in Hin. by apply elem_of_nil in Hin.
    + simpl. rewrite <- list_fmap_compose. by apply list_fmap_ext.
    + apply Forall2_fmap_l, Forall_Forall2_diag, Forall_forall.
      intros r _ c. apply row_select_lookup.
  - exists (m :: missing). split; [done|]. split; [done|].
    intros c. rewrite <- E, list_elem_of_filter. tauto.
Qed.

(** X18.  On a table that has the three columns the box-plot tab offers by
    default, with a non-empty selection of existing columns, the tab hands
    the plotting library the sub-table of the selected columns and draws
    the figure it returns, followed by the explanation; when the library
    raises, the tab raises with it and draws neither. *)
Theorem boxplot_tab_draws_selection {Figure Table : Type}
    (lib : @Library Figure Table) (df_cleaned : DataFrame)
    (selected : list string) (w : @World Figure Table) :
  Forall (λ c, c ∈ columns df_cleaned)
    ["fixed acidity"; "volatile acidity"; "quality"] →
  selected ≠ [] →
  Forall (λ c, c ∈ columns df_cleaned) selected →
  boxplot_tab lib df_cleaned selected w
  = match boxplot lib (mkDataFrame selected (row_select selected <$> rows df_cleaned)) with
    | Ok fig =>
        (mkWorld (session_state w)
           (page w ++
            [(Tab "Boxplot", subheader "Boxplot of Key Features");
             (Tab "Boxplot",
              multiselect "Select features to display boxplots:"
                (columns df_cleaned)
                ["fixed acidity"; "volatile acidity"; "quality"]);
             (Tab "Boxplot", pyplot fig);
             (Tab "Boxplot", markdown "Boxplots help identify ...")]),
         Ok ())
    | Raise e =>
        (mkWorld (session_state w)
           (page w ++
            [(Tab "Boxplot", subheader "Boxplot of Key Features");
             (Tab "Boxplot",
              multiselect "Select features to display boxplots:"
                (columns df_cleaned)
                ["fixed acidity"; "volatile acidity"; "quality"])]),
         Raise e)
    end.
Proof.
  intros Hdef Hne Hsel. pose proof (getitem_columns_Some _ _ Hsel) as Hg.
  unfold boxplot_tab. run_step.
  erewrite bind_Ok
    by (unfold st_multiselect; rewrite bool_decide_eq_true_2 by done; reflexivity).
  cbv beta.
  destruct selected as [|c cs]; [done|].
  erewrite bind_Ok by (unfold lift; apply f_equal2; [reflexivity|exact Hg]).
  cbv beta.
  destruct (boxplot lib _) as [fig|e] eqn:E.
  - do 2 run_step. unfold st. simpl. by rewrite <- !app_assoc.
  - erewrite bind_Raise by reflexivity. simpl. by rewrite <- !app_assoc.
Qed.

Lemma boxplot_tab_draws_selection_witness :
  boxplot_tab quiet_library chart_table ["fixed acidity"; "quality"] fresh_session
  = (mkWorld ∅
       [(Tab "Boxplot", subheader "Boxplot of Key Features");
        (Tab "Boxplot",
         multiselect "Select features to display boxplots:"
           chart_columns
           ["fixed acidity"; "volatile acidity"; "quality"]);
        (Tab "Boxplot", pyplot ());
        (Tab "Boxplot", markdown "Boxplots help identify ...")],
     Ok ()).
Proof.
  apply (boxplot_tab_draws_selection quiet_library chart_table
           ["fixed acidity"; "quality"] fresh_session).
  - compute_done.
  - discriminate.
  - compute_done.
Defined.

(** X19.  On a table that lacks one of the three columns the box-plot tab
    offers by default, the tab raises at its multiselect, after the
    subheader, whatever the user would have selected: no figure is drawn
    and the plotting library is not called. *)
Theorem boxplot_tab_raises_without_default {Figure Table : Type}
    (lib : @Library Figure Table) (df_cleaned : DataFrame)
    (selected : list string) (w : @World Figure Table) :
  ¬ Forall (λ c, c ∈ columns df_cleaned)
      ["fixed acidity"; "volatile acidity"; "quality"] →
  boxplot_tab lib df_cleaned selected w
  = (mkWorld (session_state w)
       (page w ++ [(Tab "Boxplot", subheader "Boxplot of Key Features")]),
     Raise StreamlitAPIException).
Proof. apply boxplot_tab_missing_default. Qed.

Lemma boxplot_tab_raises_without_default_witness :
  boxplot_tab quiet_library wine_cleaned [] fresh_session
  = (mkWorld ∅ [(Tab "Boxplot", subheader "Boxplot of Key Features")],
     Raise StreamlitAPIException).
Proof.
  apply (boxplot_tab_raises_without_default quiet_library wine_cleaned []
           fresh_session).
  compute_done.
Defined.

(** X20.  On a table whose quality column has a single integer value, so
    that the slider bounds of line 215 coincide, every run raises at the
    quality slider: it stops after the two sidebar headers and the
    navigation radio, before the filter, the download and any page, and the
    session state is untouched. *)
Theorem main_raises_on_single_quality {Figure Table : Type}
    (lib : @Library Figure Table) (df : DataFrame) (quality : Series)
    (quality_min : Z) (ui : Interaction) (w : @World Figure Table) :
  getitem df "quality" = Ok quality →
  to_int (series_min quality) = Ok quality_min →
  to_int (series_max quality) = Ok quality_min →
  main lib df ui w
  = (mkWorld (session_state w)
       (page w ++
        [(Sidebar, header "Navigation");
         (Sidebar, radio "Go to"
            ["Introduction"; "Data Cleaning & Describing";
             "Data Visualization"; "Conclusion"]);
         (Sidebar, header "Filters")]),
     Raise StreamlitAPIException).
Proof.
  intros Hgq Hmin Hmax.
  unfold main. do 7 run_step.
  erewrite bind_Raise by (apply st_slider_int_Raise; lia).
  simpl. by rewrite <- !app_assoc.
Qed.

Lemma main_raises_on_single_quality_witness :
  main quiet_library
    (mkDataFrame wine_columns
       [wine_row 0 (Some (37 # 5)) (Some (47 # 5)) (Some 5) (Some 0)]%Q)
    first_visit fresh_session
  = (mkWorld ∅
       [(Sidebar, header "Navigation");
        (Sidebar, radio "Go to"
           ["Introduction"; "Data Cleaning & Describing";
            "Data Visualization"; "Conclusion"]);
        (Sidebar, header "Filters")],
     Raise StreamlitAPIException).
Proof.
  apply (main_raises_on_single_quality quiet_library
           (mkDataFrame wine_columns
              [wine_row 0 (Some (37 # 5)) (Some (47 # 5)) (Some 5) (Some 0)]%Q)
           [Some 5]%Q 5 first_visit fresh_session);
    vm_compute; reflexivity.
Defined.
